(** * HQC-DDI prototype: a shallow embedding of [hqc_ddi_vqe_prototype.py]

    The development follows the Python module class by class.

    - Python [str] is [string], Python [int] is [Z], Python [float] and
      [numpy.float64] are the binary64 numbers of [PrimFloat].
    - A [dict] with string keys is a [gmap string _]; a [dict] whose
      iteration order is read (the quality metrics) is an association list.
    - A method that mutates [self] takes the object and returns the new one.
    - The wall clock, NumPy's global random generator and SciPy's optimizer
      live outside the module: a clock reading is an argument, the generator
      is a state that is threaded through, and the optimizer is a strategy
      tree that asks for cost-function values.
    - [print] writes to the terminal only and is left out. *)

From Stdlib Require Import ZArith List String Lia.
From Stdlib Require Import Floats.PrimFloat Numbers.Cyclic.Int63.Uint63.
From Stdlib Require Floats.FloatOps.
From stdpp Require Import base option gmap list strings.

Open Scope string_scope.
Open Scope list_scope.
Open Scope Z_scope.

(** ** Python exceptions and fallible computations *)

Inductive exn : Type :=
| TypeError (msg : string)
| ValueError (msg : string)
| OverflowError (msg : string)
| OptimizerError (msg : string).

Definition result (A : Type) : Type := exn + A.

Definition ok {A : Type} (a : A) : result A := inr a.
Definition raise {A : Type} (e : exn) : result A := inl e.


(** ** Floats *)

(** [float(n)] for a count below 2^63. *)
Definition float_of_nat (n : nat) : float :=
  PrimFloat.of_uint63 (Uint63.of_Z (Z.of_nat n)).

(** [np.mean] of a one-dimensional sequence: the sum, taken left to right,
    over the count.  On the empty sequence this is [0/0], a NaN, as in
    NumPy.  This is the float NumPy returns for fewer than eight values;
    from eight values on NumPy adds in pairs and the last bit can differ,
    so what is proved of a mean below is proved of fewer than eight
    values, or of none. *)
Definition np_mean (xs : list float) : float :=
  PrimFloat.div (fold_left PrimFloat.add xs 0%float) (float_of_nat (length xs)).

(** ** DP2: [DataGovernanceManager] *)

Module Governance.

Definition ROLES_items : list (string * list string) :=
  [ ("data_owner", ["read"; "write"; "approve"; "delete"]);
    ("quantum_specialist", ["read"; "execute_quantum"; "write_results"]);
    ("classical_specialist", ["read"; "execute_classical"; "write_results"]);
    ("data_steward", ["read"; "validate_quality"; "audit"]);
    ("compliance_officer", ["read"; "audit"; "policy_enforcement"]) ].

Definition ROLES : gmap string (list string) := list_to_map ROLES_items.

Record AuditEntry : Type := mkAuditEntry {
  timestamp : string;
  event_type : string;
  user : string;
  details : string
}.

Record Metadata : Type := mkMetadata {
  dataset_id : string;
  created_timestamp : string;
  data_owner : string;
  purpose : string;
  classification : string;
  data_type : string;
  provenance : list string;
  policies : list string;
  quality_score : float;
  (* the key "quality_metrics" is absent until quality is recorded *)
  quality_metrics : option (list (string * float))
}.

Record DataGovernanceManager : Type := mkManager {
  metadata_store : gmap string Metadata;
  audit_log : list AuditEntry
}.

(** [__init__] *)
Definition init : DataGovernanceManager :=
  {| metadata_store := ∅; audit_log := [] |}.

(** [_audit_log]; [now] is [datetime.now().isoformat()]. *)
Definition _audit_log (now : string) (self : DataGovernanceManager)
    (event_type user details : string) : DataGovernanceManager :=
  let log_entry :=
    {| timestamp := now; event_type := event_type;
       user := user; details := details |} in
  {| metadata_store := metadata_store self;
     audit_log := audit_log self ++ [log_entry] |}.

(** [create_dataset_metadata]; the clock is read twice. *)
Definition create_dataset_metadata (created now : string)
    (self : DataGovernanceManager)
    (dataset_id owner purpose classification : string)
    : Metadata * DataGovernanceManager :=
  let metadata :=
    {| dataset_id := dataset_id;
       created_timestamp := created;
       data_owner := owner;
       purpose := purpose;
       classification := classification;
       data_type := "quantum_classical_hybrid";
       provenance := [];
       policies := [];
       quality_score := 0%float;
       quality_metrics := None |} in
  let self1 :=
    {| metadata_store := <[dataset_id := metadata]> (metadata_store self);
       audit_log := audit_log self |} in
  (metadata,
   _audit_log now self1 "CREATE" owner ("Created dataset " +:+ dataset_id)).

(** [check_access] *)
Definition check_access (now : string) (self : DataGovernanceManager)
    (user role action : string) : bool * DataGovernanceManager :=
  match ROLES !! role with
  | None =>
      (false, _audit_log now self "DENIED" user ("Invalid role: " +:+ role))
  | Some allowed =>
      if bool_decide (action ∈ allowed) then
        (true,
         _audit_log now self "GRANTED" user
           ("Action " +:+ action +:+ " approved for role " +:+ role))
      else
        (false,
         _audit_log now self "DENIED" user
           ("Role " +:+ role +:+ " cannot perform " +:+ action))
  end.

(** [record_data_quality] *)
Definition record_data_quality (self : DataGovernanceManager)
    (dataset_id : string) (quality_metrics : list (string * float))
    : DataGovernanceManager :=
  match metadata_store self !! dataset_id with
  | Some md =>
      let avg_quality := np_mean (map snd quality_metrics) in
      let md' :=
        {| Governance.dataset_id := Governance.dataset_id md;
           created_timestamp := created_timestamp md;
           data_owner := data_owner md;
           purpose := purpose md;
           classification := classification md;
           data_type := data_type md;
           provenance := provenance md;
           policies := policies md;
           quality_score := avg_quality;
           quality_metrics := Some quality_metrics |} in
      {| metadata_store := <[dataset_id := md']> (metadata_store self);
         audit_log := audit_log self |}
  | None => self
  end.

End Governance.

(** ** NumPy's global random generator

    The generator is a state: the sequence of numbers it is going to produce
    and how many of them have been consumed.  Arrays are lists, and memory
    is not bounded: an array of any size can be built. *)

Module Numpy.

Record RandomState : Type := mkRandomState {
  samples : nat -> float;
  cursor : nat
}.

(** [np.random.random()] *)
Definition random (rs : RandomState) : float * RandomState :=
  (samples rs (cursor rs),
   {| samples := samples rs; cursor := S (cursor rs) |}).

Fixpoint random_vector (n : nat) (rs : RandomState)
    : list float * RandomState :=
  match n with
  | O => ([], rs)
  | S n' =>
      let '(v, rs1) := random rs in
      let '(vs, rs2) := random_vector n' rs1 in
      (v :: vs, rs2)
  end.

Fixpoint random_rows (r c : nat) (rs : RandomState)
    : list (list float) * RandomState :=
  match r with
  | O => ([], rs)
  | S r' =>
      let '(row, rs1) := random_vector c rs in
      let '(rows, rs2) := random_rows r' c rs1 in
      (row :: rows, rs2)
  end.

(** A Python number used as an array dimension. *)
Inductive pynum : Type :=
| PyInt (z : Z)
| PyFloat (f : float).

(** [float(n)] raises an [OverflowError] when the int is nearer to 2^1024
    than to the largest float, 2^1024 - 2^971. *)
Definition float_overflows (n : Z) : bool :=
  2 ^ 1024 - 2 ^ 970 <=? Z.abs n.

(** [2**n] for an [int] n: an [int] when n is not negative.  For a negative
    n Python computes [float(2) ** float(n)]: the float 2^n, which is 0.0
    from n = -1075 down, unless n itself is too large to convert. *)
Definition pow2 (n : Z) : result pynum :=
  if 0 <=? n then ok (PyInt (2 ^ n))
  else if float_overflows n then
    raise (OverflowError "int too large to convert to float")
  else ok (PyFloat (FloatOps.Z.ldexp 1%float n)).

(** [np.random.random(size)] for an [int] size. *)
Definition random_1d (size : Z) (rs : RandomState)
    : result (list float) * RandomState :=
  if size <? 0 then
    (raise (ValueError "negative dimensions are not allowed"), rs)
  else
    let '(v, rs') := random_vector (Z.to_nat size) rs in (ok v, rs').

(** [np.random.random((rows, cols))] *)
Definition random_2d (rows cols : pynum) (rs : RandomState)
    : result (list (list float)) * RandomState :=
  match rows, cols with
  | PyInt r, PyInt c =>
      if (r <? 0) || (c <? 0) then
        (raise (ValueError "negative dimensions are not allowed"), rs)
      else
        let '(m, rs') := random_rows (Z.to_nat r) (Z.to_nat c) rs in
        (ok m, rs')
  | _, _ =>
      (raise (TypeError "'float' object cannot be interpreted as an integer"),
       rs)
  end.

(** [a.shape] of a two-dimensional array that has at least one row. *)
Definition shape (m : list (list float)) : nat * nat :=
  (length m, length (List.hd [] m)).

End Numpy.

(** ** SciPy's optimizer, seen from the cost function

    [minimize(cost_function, x0, ...)] is a strategy: it asks for the cost
    at a point and goes on from the answer, or it returns its result, or it
    raises. *)

Module Scipy.

Record OptimizeResult : Type := mkOptimizeResult {
  x : list float;
  fun_ : float;
  success : bool
}.

Inductive Optimizer : Type :=
| Evaluate (point : list float) (k : float -> Optimizer)
| Return (res : OptimizeResult)
| Raise (e : exn).

(** [dialogue o values out]: fed [values], in this order, as the answers
    to its evaluations, the optimizer [o] ends with [out]. *)
Inductive dialogue : Optimizer -> list float -> result OptimizeResult -> Prop :=
| dialogue_evaluate point k value values out :
    dialogue (k value) values out ->
    dialogue (Evaluate point k) (value :: values) out
| dialogue_return res :
    dialogue (Return res) [] (ok res)
| dialogue_raise e :
    dialogue (Raise e) [] (raise e).

(** The optimizer asks for at most [n] evaluations, whatever the answers. *)
Fixpoint call_bound (n : nat) (o : Optimizer) : Prop :=
  match o with
  | Evaluate _ k =>
      match n with
      | O => False
      | S n' => forall value, call_bound n' (k value)
      end
  | Return _ | Raise _ => True
  end.

End Scipy.

(** ** DP1: [HybridQuantumOrchestrator] *)

Module Orchestrator.

Import Numpy Scipy.

(** [problem_config]: a key that is absent from the dict is [None]. *)
Module ProblemConfig.
Record t : Type := mk {
  n_qubits : option Z;
  num_parameters : option Z;
  ansatz_reps : option Z;
  backend : option string
}.
End ProblemConfig.

Record Ansatz : Type := mkAnsatz {
  type : string;
  reps : Z;
  entanglement : string
}.

(** One entry of [iteration_history]. *)
Record EvaluationRecord : Type := mkEvaluationRecord {
  iteration : nat;
  params : list float;
  energy : float
}.

(** The mutable Python lists that hold evaluation records live in a store;
    a list object is known by its address. *)
Definition loc : Type := nat.

Record World : Type := mkWorld {
  rng : RandomState;
  lists : list (list EvaluationRecord)
}.

(** A statement that may raise: it yields a value or an exception, and the
    world as it is at that moment. *)
Definition M (A : Type) : Type := World -> result A * World.

Definition ret {A : Type} (a : A) : M A := fun w => (ok a, w).

(** A computation that leaves the world alone. *)
Definition lift {A : Type} (r : result A) : M A := fun w => (r, w).

Definition bind {A B : Type} (m : M A) (k : A -> M B) : M B :=
  fun w =>
    match m w with
    | (inl e, w') => (inl e, w')
    | (inr a, w') => k a w'
    end.

Notation "'let*' a ':=' m 'in' k" := (bind m (fun a => k))
  (at level 10, a pattern, m at level 100, k at level 200).

Definition with_rng {A : Type}
    (f : RandomState -> result A * RandomState) : M A :=
  fun w =>
    let '(r, rs') := f (rng w) in
    (r, {| rng := rs'; lists := lists w |}).

(** [[]]: a new, empty list object. *)
Definition new_list : M loc :=
  fun w =>
    (ok (length (lists w)),
     {| rng := rng w; lists := lists w ++ [[]] |}).

(** [len(l)] *)
Definition list_len (l : loc) (w : World) : nat :=
  length (default [] (lists w !! l)).

(** [l.append(r)] *)
Definition list_append (l : loc) (r : EvaluationRecord) (w : World) : World :=
  {| rng := rng w; lists := alter (fun h => h ++ [r]) l (lists w) |}.

Module WorkflowResult.
Record t : Type := mk {
  backend : string;
  problem : ProblemConfig.t;
  optimal_params : list float;
  minimum_energy : float;
  iterations : loc;
  success : bool
}.
End WorkflowResult.

Record HybridQuantumOrchestrator : Type := mkOrchestrator {
  backend_type : string;
  execution_history : list WorkflowResult.t
}.

(** [__init__] *)
Definition init (backend_type : string) : HybridQuantumOrchestrator :=
  {| backend_type := backend_type; execution_history := [] |}.

(** [_construct_hamiltonian] *)
Definition _construct_hamiltonian (problem_config : ProblemConfig.t)
    : M (list (list float)) :=
  let n_qubits := default 2 (ProblemConfig.n_qubits problem_config) in
  let* rows := lift (pow2 n_qubits) in
  let* cols := lift (pow2 n_qubits) in
  with_rng (random_2d rows cols).

(** [_construct_ansatz] *)
Definition _construct_ansatz (problem_config : ProblemConfig.t) : Ansatz :=
  {| type := "two_local";
     reps := default 2 (ProblemConfig.ansatz_reps problem_config);
     entanglement := "full" |}.

(** [_quantum_evaluate] *)
Definition _quantum_evaluate (params : list float)
    (hamiltonian : list (list float)) (ansatz : Ansatz)
    (w : World) : float * World :=
  let '(r, rs') := random (rng w) in
  let energy := PrimFloat.sub r 0.5%float in
  (energy, {| rng := rs'; lists := lists w |}).

(** The closure [cost_function] of [execute_vqe_workflow]; it captures the
    operator, the ansatz and the list [iteration_history]. *)
Definition cost_function (hamiltonian : list (list float)) (ansatz : Ansatz)
    (iteration_history : loc) (params : list float)
    (w : World) : float * World :=
  let '(energy, w1) := _quantum_evaluate params hamiltonian ansatz w in
  let record :=
    {| iteration := list_len iteration_history w1;
       params := params;
       energy := energy |} in
  (energy, list_append iteration_history record w1).

(** Running the optimizer against a cost function. *)
Fixpoint run_optimizer (cost : list float -> World -> float * World)
    (o : Optimizer) : M OptimizeResult :=
  fun w =>
    match o with
    | Evaluate point k =>
        let '(value, w1) := cost point w in
        run_optimizer cost (k value) w1
    | Return res => (ok res, w)
    | Raise e => (raise e, w)
    end.

Section Workflow.

(** [minimize x0 maxiter] stands for
    [minimize(cost_function, x0, method="COBYLA",
              options={"maxiter": maxiter})]. *)
Variable minimize : list float -> Z -> Optimizer.

(** [execute_vqe_workflow] *)
Definition execute_vqe_workflow (self : HybridQuantumOrchestrator)
    (problem_config : ProblemConfig.t) (max_iterations : Z)
    : M (WorkflowResult.t * HybridQuantumOrchestrator) :=
  let* hamiltonian := _construct_hamiltonian problem_config in
  let ansatz := _construct_ansatz problem_config in
  let* init_params :=
    with_rng
      (random_1d (default 4 (ProblemConfig.num_parameters problem_config)))
  in
  let* iteration_history := new_list in
  let* result :=
    run_optimizer (cost_function hamiltonian ansatz iteration_history)
      (minimize init_params max_iterations)
  in
  let workflow_result :=
    {| WorkflowResult.backend := backend_type self;
       WorkflowResult.problem := problem_config;
       WorkflowResult.optimal_params := x result;
       WorkflowResult.minimum_energy := fun_ result;
       WorkflowResult.iterations := iteration_history;
       WorkflowResult.success := success result |} in
  ret (workflow_result,
       {| backend_type := backend_type self;
          execution_history :=
            execution_history self ++ [workflow_result] |}).

End Workflow.

(** The bound methods that [get_backend_adapter] hands out. *)
Inductive Adapter : Type :=
| _qiskit_simulator
| _aws_braket
| _cuda_q.

(** Calling an adapter. *)
Definition call (a : Adapter) : string :=
  match a with
  | _qiskit_simulator => "IBM Qiskit Simulator Backend"
  | _aws_braket => "AWS Braket Backend"
  | _cuda_q => "NVIDIA CUDA-Q Backend"
  end.

Definition adapters : gmap string Adapter :=
  list_to_map
    [ ("qiskit_simulator", _qiskit_simulator);
      ("braket", _aws_braket);
      ("cuda_q", _cuda_q) ].

(** [get_backend_adapter] *)
Definition get_backend_adapter (self : HybridQuantumOrchestrator)
    (backend_type : string) : Adapter :=
  default _qiskit_simulator (adapters !! backend_type).

(** [min(r["energy"] for r in history)]; [None] where Python raises on an
    empty sequence. *)
Definition py_min (xs : list float) : option float :=
  match xs with
  | [] => None
  | x0 :: rest =>
      Some (fold_left
              (fun best y => if PrimFloat.ltb y best then y else best)
              rest x0)
  end.

(** The optimizer returns, as its [fun], the least of the values it has
    been given ([seen] are the values given so far). *)
Fixpoint reports_least (seen : list float) (o : Optimizer) : Prop :=
  match o with
  | Evaluate _ k => forall value, reports_least (seen ++ [value]) (k value)
  | Return res => py_min seen = Some (fun_ res)
  | Raise _ => True
  end.

End Orchestrator.

(** ** Concrete runs

    A generator, two optimizers and the problem of [run_full_demo], to run
    the model on. *)

Module Scenario.

Import Numpy Scipy Orchestrator.

(** A generator that produces 0, 0.25, 0.5, 0.75, 0, 0.25, ... *)
Definition cycle4 : RandomState :=
  {| samples := fun i => PrimFloat.div (float_of_nat (i mod 4)) 4%float;
     cursor := O |}.

Definition world0 : World := {| rng := cycle4; lists := [] |}.

Definition step (point : list float) : list float :=
  map (fun v => PrimFloat.add v 0.5%float) point.

(** A direct search that keeps the best point it has seen: one evaluation
    of the initial point, then at most [maxiter] trial points. *)
Fixpoint search (budget : nat) (trial best : list float) (best_value : float)
    : Optimizer :=
  match budget with
  | O => Return {| x := best; fun_ := best_value; success := false |}
  | S budget' =>
      Evaluate trial (fun value =>
        if PrimFloat.ltb value best_value
        then search budget' (step trial) trial value
        else search budget' (step trial) best best_value)
  end.

Definition greedy_minimize (x0 : list float) (maxiter : Z) : Optimizer :=
  Evaluate x0 (fun value => search (Z.to_nat maxiter) (step x0) x0 value).

(** The problem of [run_full_demo]. *)
Definition demo_config : ProblemConfig.t :=
  {| ProblemConfig.n_qubits := Some 2;
     ProblemConfig.num_parameters := Some 4;
     ProblemConfig.ansatz_reps := Some 2;
     ProblemConfig.backend := Some "qiskit_simulator" |}.

Definition with_num_parameters (n : Z) (c : ProblemConfig.t)
    : ProblemConfig.t :=
  {| ProblemConfig.n_qubits := ProblemConfig.n_qubits c;
     ProblemConfig.num_parameters := Some n;
     ProblemConfig.ansatz_reps := ProblemConfig.ansatz_reps c;
     ProblemConfig.backend := ProblemConfig.backend c |}.

Definition with_n_qubits (n : Z) (c : ProblemConfig.t) : ProblemConfig.t :=
  {| ProblemConfig.n_qubits := Some n;
     ProblemConfig.num_parameters := ProblemConfig.num_parameters c;
     ProblemConfig.ansatz_reps := ProblemConfig.ansatz_reps c;
     ProblemConfig.backend := ProblemConfig.backend c |}.

Definition with_ansatz_reps (n : Z) (c : ProblemConfig.t) : ProblemConfig.t :=
  {| ProblemConfig.n_qubits := ProblemConfig.n_qubits c;
     ProblemConfig.num_parameters := ProblemConfig.num_parameters c;
     ProblemConfig.ansatz_reps := Some n;
     ProblemConfig.backend := ProblemConfig.backend c |}.

Definition orchestrator0 : HybridQuantumOrchestrator :=
  Orchestrator.init "qiskit_simulator".

(** The governance manager of [run_full_demo] after its first call. *)
Definition demo_manager : Governance.DataGovernanceManager :=
  (Governance.create_dataset_metadata
     "2025-11-01T09:00:00" "2025-11-01T09:00:00"
     Governance.init "drug_discovery_001" "pharma_scientist_1"
     "Virtual screening for protein targets" "confidential").2.

End Scenario.

(** ** Python numbers

    The entries of the result dicts and of the KPI templates are Python
    numbers: an [int] or a [float].  The operations below are the ones the
    benchmark uses, with Python's rules: two ints subtract to an int, true
    division always gives a float, an int that meets a float is converted
    first, and dividing by zero raises. *)

Module PyNum.

Inductive number : Type :=
| Int (z : Z)
| Float (f : float).

Inductive arith_exn : Type :=
| ZeroDivisionError
| OverflowError.

Definition arith (A : Type) : Type := arith_exn + A.

Definition abind {A B : Type} (m : arith A) (k : A -> arith B) : arith B :=
  match m with
  | inl e => inl e
  | inr a => k a
  end.

(** The float nearest to [m * 2^e], ties to even; an [OverflowError] where
    that is no finite float. *)
Definition round_to_float (m e : Z) : arith float :=
  match SpecFloat.binary_normalize FloatOps.prec FloatOps.emax m e false with
  | SpecFloat.S754_infinity _ => inl OverflowError
  | sf => inr (FloatOps.SF2Prim sf)
  end.

(** [float(z)] *)
Definition float_of_int (z : Z) : arith float := round_to_float z 0.

(** The conversion of an operand that meets a float. *)
Definition as_float (a : number) : arith float :=
  match a with
  | Int z => float_of_int z
  | Float f => inr f
  end.

(** [a / b] for two ints: the float nearest to the exact quotient.  The
    quotient is taken to more than 64 bits, with one more bit that says
    whether anything was left over, and rounded once. *)
Definition int_truediv (a b : Z) : arith float :=
  if b =? 0 then inl ZeroDivisionError
  else
    let negate := xorb (a <? 0) (b <? 0) in
    if a =? 0 then inr (if negate then (-0)%float else 0%float)
    else
      let s := Z.max 0 (66 + Z.log2 (Z.abs b) - Z.log2 (Z.abs a)) in
      let n := Z.abs a * 2 ^ s in
      let q := n / Z.abs b in
      let sticky := if n mod Z.abs b =? 0 then 0 else 1 in
      let m := 2 * q + sticky in
      round_to_float (if negate then - m else m) (- s - 1).

(** [a / b] *)
Definition truediv (a b : number) : arith number :=
  match a, b with
  | Int x, Int y => abind (int_truediv x y) (fun f => inr (Float f))
  | _, _ =>
      abind (as_float a) (fun x =>
      abind (as_float b) (fun y =>
      if PrimFloat.eqb y 0%float then inl ZeroDivisionError
      else inr (Float (PrimFloat.div x y))))
  end.

(** [a - b] *)
Definition sub (a b : number) : arith number :=
  match a, b with
  | Int x, Int y => inr (Int (x - y))
  | _, _ =>
      abind (as_float a) (fun x =>
      abind (as_float b) (fun y => inr (Float (PrimFloat.sub x y))))
  end.

(** [a * b] *)
Definition mul (a b : number) : arith number :=
  match a, b with
  | Int x, Int y => inr (Int (x * y))
  | _, _ =>
      abind (as_float a) (fun x =>
      abind (as_float b) (fun y => inr (Float (PrimFloat.mul x y))))
  end.

(** [b == 0] *)
Definition is_zero (b : number) : bool :=
  match b with
  | Int z => z =? 0
  | Float f => PrimFloat.eqb f 0%float
  end.

End PyNum.

(** ** Dicts whose key order is read

    A Python dict keeps its keys in the order of their first insertion;
    assigning to a key that is present replaces the value in place. *)

Module PyDict.

Section Dict.

Context {V : Type}.

Definition dict : Type := list (string * V).

(** [d.get(k)] *)
Fixpoint get (k : string) (d : dict) : option V :=
  match d with
  | [] => None
  | (k', v) :: d' => if decide (k = k') then Some v else get k d'
  end.

(** [d[k] = v] *)
Fixpoint set (k : string) (v : V) (d : dict) : dict :=
  match d with
  | [] => [(k, v)]
  | (k', v') :: d' =>
      if decide (k = k') then (k, v) :: d' else (k', v') :: set k v d'
  end.

(** [list(d.keys())] *)
Definition keys (d : dict) : list string := d.*1.

End Dict.

Arguments dict : clear implicits.

End PyDict.

(** ** DP3: [ValueMeasurementEngine] *)

Module ValueMeasurement.

Import PyNum.

Record Benchmark : Type := mkBenchmark {
  timestamp : string;
  domain : string;
  hqc_result : gmap string number;
  classical_result : gmap string number;
  metrics : gmap string number
}.

Record ValueMeasurementEngine : Type := mkEngine {
  kpi_templates : gmap string (PyDict.dict number);
  benchmarks : list Benchmark
}.

(** [_load_kpi_templates] *)
Definition _load_kpi_templates : gmap string (PyDict.dict number) :=
  list_to_map
    [ ("pharmaceutical",
       [ ("cost_reduction_pct", Float 0);
         ("time_to_discovery_days", Int 0);
         ("problem_solvability", Float 0);
         ("accuracy_improvement", Float 0) ]);
      ("financial",
       [ ("portfolio_optimization_quality", Float 0);
         ("computation_speedup", Float 0);
         ("cost_per_optimization", Float 0);
         ("risk_assessment_accuracy", Float 0) ]);
      ("materials_science",
       [ ("crystal_structure_accuracy", Float 0);
         ("simulation_speedup", Float 0);
         ("discovery_rate", Float 0);
         ("energy_efficiency", Float 0) ]) ].

(** [__init__] *)
Definition init : ValueMeasurementEngine :=
  {| kpi_templates := _load_kpi_templates; benchmarks := [] |}.

(** The loop that copies the KPIs of a domain into the metrics:
    [for key in kpi_keys: metrics[key] = template[key]]. *)
Definition apply_kpi_template (template : PyDict.dict number)
    (metrics : gmap string number) : gmap string number :=
  fold_left
    (fun m key =>
       match PyDict.get key template with
       | Some v => <[key := v]> m
       | None => m
       end)
    (PyDict.keys template) metrics.

(** The defaults of [dict.get]: 0.1, 0.5, 0.9 and 0.7 are the floats Python
    reads these literals as. *)
Definition f0_1 : float := 0x1.999999999999ap-4%float.
Definition f0_9 : float := 0x1.ccccccccccccdp-1%float.
Definition f0_7 : float := 0x1.6666666666666p-1%float.

(** [benchmark_hqc_vs_classical]; [now] is [datetime.now().isoformat()]. *)
Definition benchmark_hqc_vs_classical (now : string)
    (self : ValueMeasurementEngine)
    (hqc_result classical_result : gmap string number) (domain : string)
    : arith (Benchmark * ValueMeasurementEngine) :=
  let metrics : gmap string number := ∅ in
  abind (truediv (default (Int 1) (classical_result !! "execution_time"))
                 (default (Float f0_1) (hqc_result !! "execution_time")))
    (fun speedup_factor =>
  let metrics := <["speedup_factor" := speedup_factor]> metrics in
  abind (sub (default (Int 1) (classical_result !! "cost"))
             (default (Float 0.5) (hqc_result !! "cost")))
    (fun saved =>
  abind (truediv saved (default (Int 1) (classical_result !! "cost")))
    (fun ratio =>
  abind (mul ratio (Int 100))
    (fun cost_reduction_pct =>
  let metrics := <["cost_reduction_pct" := cost_reduction_pct]> metrics in
  abind (sub (default (Float f0_9) (hqc_result !! "solution_quality"))
             (default (Float f0_7) (classical_result !! "solution_quality")))
    (fun quality_improvement =>
  let metrics := <["quality_improvement" := quality_improvement]> metrics in
  abind (truediv (default (Int 100) (hqc_result !! "iterations"))
                 (default (Int 100) (classical_result !! "iterations")))
    (fun convergence_efficiency =>
  let metrics :=
    <["convergence_efficiency" := convergence_efficiency]> metrics in
  let metrics :=
    match kpi_templates self !! domain with
    | Some template => apply_kpi_template template metrics
    | None => metrics
    end in
  let benchmark :=
    {| timestamp := now;
       domain := domain;
       hqc_result := hqc_result;
       classical_result := classical_result;
       metrics := metrics |} in
  inr (benchmark,
       {| kpi_templates := kpi_templates self;
          benchmarks := benchmarks self ++ [benchmark] |}))))))).

(** What [generate_kpi_dashboard] returns: the status dict, or the summary
    dict. *)
Inductive Dashboard : Type :=
| NoBenchmarks (status : string)
| Summary (total_runs : nat)
    (average_speedup average_cost_reduction_pct : float)
    (domain_breakdown : PyDict.dict (list (gmap string number)))
    (latest_benchmark : Benchmark).

Inductive dashboard_exn : Type :=
| KeyError (key : string)
| ArithError (e : arith_exn).

(** [[b["metrics"][key] for b in self.benchmarks]], as the float64 array
    that [np.mean] makes of it. *)
Fixpoint metric_column (key : string) (bs : list Benchmark)
    : dashboard_exn + list float :=
  match bs with
  | [] => inr []
  | b :: bs' =>
      match metrics b !! key with
      | None => inl (KeyError key)
      | Some v =>
          match metric_column key bs' with
          | inl e => inl e
          | inr fs =>
              match as_float v with
              | inl e => inl (ArithError e)
              | inr f => inr (f :: fs)
              end
          end
      end
  end.

(** The loop that fills [domain_breakdown]. *)
Definition break_down (bs : list Benchmark)
    : PyDict.dict (list (gmap string number)) :=
  fold_left
    (fun bd b =>
       let bd1 :=
         match PyDict.get (domain b) bd with
         | None => PyDict.set (domain b) [] bd
         | Some _ => bd
         end in
       PyDict.set (domain b)
         (default [] (PyDict.get (domain b) bd1) ++ [metrics b]) bd1)
    bs [].

(** [generate_kpi_dashboard] *)
Definition generate_kpi_dashboard (self : ValueMeasurementEngine)
    : dashboard_exn + Dashboard :=
  match last (benchmarks self) with
  | None => inr (NoBenchmarks "No benchmarks yet")
  | Some latest =>
      match metric_column "speedup_factor" (benchmarks self) with
      | inl e => inl e
      | inr speedups =>
          match metric_column "cost_reduction_pct" (benchmarks self) with
          | inl e => inl e
          | inr reductions =>
              inr (Summary (length (benchmarks self))
                     (np_mean speedups) (np_mean reductions)
                     (break_down (benchmarks self)) latest)
          end
      end
  end.

(** The engines a program can build: a new engine, and what a successful
    benchmark makes of one (a benchmark that raises changes nothing). *)
Inductive reachable : ValueMeasurementEngine -> Prop :=
| reachable_init : reachable init
| reachable_benchmark now self hqc classical dom b self' :
    reachable self ->
    benchmark_hqc_vs_classical now self hqc classical dom = inr (b, self') ->
    reachable self'.

End ValueMeasurement.

(** ** DP4: [PluginRegistry] *)

Module Plugins.

Import PyNum.

Record DomainPlugin : Type := mkDomainPlugin {
  kpi_template : PyDict.dict number;
  workflows : list string
}.

Section Registry.

(** The adapters that are registered: any Python object. *)
Context {A : Type}.

Record PluginRegistry : Type := mkRegistry {
  quantum_backends : PyDict.dict A;
  classical_adapters : PyDict.dict A;
  domain_plugins : PyDict.dict DomainPlugin
}.

(** [__init__] *)
Definition init : PluginRegistry :=
  {| quantum_backends := []; classical_adapters := []; domain_plugins := [] |}.

(** [register_quantum_backend] *)
Definition register_quantum_backend (self : PluginRegistry)
    (name : string) (adapter_class : A) : PluginRegistry :=
  {| quantum_backends := PyDict.set name adapter_class (quantum_backends self);
     classical_adapters := classical_adapters self;
     domain_plugins := domain_plugins self |}.

(** [register_domain_plugin] *)
Definition register_domain_plugin (self : PluginRegistry)
    (domain : string) (kpi_template : PyDict.dict number)
    (workflows : list string) : PluginRegistry :=
  {| quantum_backends := quantum_backends self;
     classical_adapters := classical_adapters self;
     domain_plugins :=
       PyDict.set domain
         {| kpi_template := kpi_template; workflows := workflows |}
         (domain_plugins self) |}.

(** [get_quantum_backend] *)
Definition get_quantum_backend (self : PluginRegistry) (name : string)
    : option A :=
  PyDict.get name (quantum_backends self).

(** [get_domain_plugin] *)
Definition get_domain_plugin (self : PluginRegistry) (domain : string)
    : option DomainPlugin :=
  PyDict.get domain (domain_plugins self).

(** [list_available_backends] *)
Definition list_available_backends (self : PluginRegistry) : list string :=
  PyDict.keys (quantum_backends self).

(** [list_available_domains] *)
Definition list_available_domains (self : PluginRegistry) : list string :=
  PyDict.keys (domain_plugins self).

(** A call that changes the registry. *)
Inductive registration : Type :=
| RegisterBackend (name : string) (adapter_class : A)
| RegisterDomain (domain : string) (kpi_template : PyDict.dict number)
    (workflows : list string).

Definition register (self : PluginRegistry) (c : registration)
    : PluginRegistry :=
  match c with
  | RegisterBackend name adapter_class =>
      register_quantum_backend self name adapter_class
  | RegisterDomain domain kpi_template workflows =>
      register_domain_plugin self domain kpi_template workflows
  end.

End Registry.

Arguments PluginRegistry : clear implicits.
Arguments registration : clear implicits.

End Plugins.

(** ** Sequences of calls on a governance manager *)

Module GovernanceCalls.

Import Governance.

(** One call, with the clock readings it makes. *)
Inductive call : Type :=
| CreateDatasetMetadata (created now : string)
    (dataset_id owner purpose classification : string)
| CheckAccess (now : string) (user role action : string)
| RecordDataQuality (dataset_id : string)
    (quality_metrics : list (string * float)).

Definition perform (self : DataGovernanceManager) (c : call)
    : DataGovernanceManager :=
  match c with
  | CreateDatasetMetadata created now dataset_id owner purpose classification =>
      (create_dataset_metadata created now self
         dataset_id owner purpose classification).2
  | CheckAccess now user role action =>
      (check_access now self user role action).2
  | RecordDataQuality dataset_id quality_metrics =>
      record_data_quality self dataset_id quality_metrics
  end.

Definition perform_all (self : DataGovernanceManager) (cs : list call)
    : DataGovernanceManager :=
  fold_left perform cs self.

(** The calls that write to the audit log. *)
Definition audited (c : call) : bool :=
  match c with
  | CreateDatasetMetadata _ _ _ _ _ _ | CheckAccess _ _ _ _ => true
  | RecordDataQuality _ _ => false
  end.

(** The dataset a call creates. *)
Definition created_id (c : call) : option string :=
  match c with
  | CreateDatasetMetadata _ _ dataset_id _ _ _ => Some dataset_id
  | _ => None
  end.

End GovernanceCalls.

(** ** What the optimizer asked and what it was told *)

Module Transcript.

Import Scipy.

(** [asked o points values out]: the optimizer [o] asks for the cost at
    [points], one after the other, is answered [values], and ends with
    [out]. *)
Inductive asked
    : Optimizer -> list (list float) -> list float ->
      result OptimizeResult -> Prop :=
| asked_evaluate point k value points values out :
    asked (k value) points values out ->
    asked (Evaluate point k) (point :: points) (value :: values) out
| asked_return res : asked (Return res) [] [] (ok res)
| asked_raise e : asked (Raise e) [] [] (raise e).

End Transcript.

(** The results that [run_full_demo] benchmarks.  8.2, 0.87 and 0.94 are
    written as the floats Python reads these literals as. *)

Module BenchmarkScenario.

Import PyNum ValueMeasurement.

Definition demo_classical : gmap string number :=
  <["execution_time" := Float 120.5]>
    (<["cost" := Float 45]>
       (<["solution_quality" := Float 0x1.bd70a3d70a3d7p-1]>
          (<["iterations" := Int 150]> ∅))).

Definition demo_hqc : gmap string number :=
  <["execution_time" := Float 0x1.0666666666666p+3]>
    (<["cost" := Float 12.5]>
       (<["solution_quality" := Float 0x1.e147ae147ae14p-1]>
          (<["iterations" := Int 22]> ∅))).

(** A result whose run took no measurable time. *)
Definition instant_hqc : gmap string number :=
  <["execution_time" := Float 0]> demo_hqc.

(** The engine of [run_full_demo] after its benchmark. *)
Definition demo_engine : ValueMeasurementEngine :=
  match benchmark_hqc_vs_classical "2025-11-01T09:00:00" init
          demo_hqc demo_classical "pharmaceutical" with
  | inr (_, engine) => engine
  | inl _ => init
  end.

End BenchmarkScenario.

(** * Properties *)

(** ** The random generator *)

Module NumpyFacts.

Import Numpy.

Lemma random_vector_length n rs :
  length (random_vector n rs).1 = n.
Proof.
  revert rs; induction n as [|n IH]; intros rs; simpl; [reflexivity|].
  specialize (IH {| samples := samples rs; cursor := S (cursor rs) |}).
  destruct (random_vector n _) as [vs rs2]; simpl in *. congruence.
Qed.

Lemma random_rows_length r c rs :
  length (random_rows r c rs).1 = r.
Proof.
  revert rs; induction r as [|r IH]; intros rs; simpl; [reflexivity|].
  destruct (random_vector c rs) as [row rs1].
  specialize (IH rs1). destruct (random_rows r c rs1) as [rows rs2].
  simpl in *. congruence.
Qed.

Lemma random_rows_width r c rs :
  Forall (fun row => length row = c) (random_rows r c rs).1.
Proof.
  revert rs; induction r as [|r IH]; intros rs; simpl; [constructor|].
  pose proof (random_vector_length c rs) as Hrow.
  destruct (random_vector c rs) as [row rs1].
  specialize (IH rs1). destruct (random_rows r c rs1) as [rows rs2].
  simpl in *. constructor; assumption.
Qed.

Lemma random_vector_cursor n rs :
  cursor (random_vector n rs).2 = (cursor rs + n)%nat.
Proof.
  revert rs; induction n as [|n IH]; intros rs; simpl; [lia|].
  specialize (IH {| samples := samples rs; cursor := S (cursor rs) |}).
  destruct (random_vector n _) as [vs rs2]; simpl in *. lia.
Qed.

Lemma random_rows_cursor r c rs :
  cursor (random_rows r c rs).2 = (cursor rs + r * c)%nat.
Proof.
  revert rs; induction r as [|r IH]; intros rs; simpl; [lia|].
  pose proof (random_vector_cursor c rs) as Hrow.
  destruct (random_vector c rs) as [row rs1].
  specialize (IH rs1). destruct (random_rows r c rs1) as [rows rs2].
  simpl in *. lia.
Qed.

Lemma pow2_int n : 0 <= n -> pow2 n = ok (PyInt (2 ^ n)).
Proof. intros Hn. unfold pow2. destruct (Z.leb_spec 0 n); [reflexivity|lia]. Qed.

Lemma pow2_float n :
  n < 0 -> float_overflows n = false -> exists f, pow2 n = ok (PyFloat f).
Proof.
  intros Hn Hfin. unfold pow2. rewrite Hfin.
  destruct (Z.leb_spec 0 n); [lia|eauto].
Qed.

Lemma pow2_overflow n :
  n < 0 -> float_overflows n = true ->
  pow2 n = raise (OverflowError "int too large to convert to float").
Proof.
  intros Hn Hinf. unfold pow2. rewrite Hinf.
  destruct (Z.leb_spec 0 n); [lia|reflexivity].
Qed.

End NumpyFacts.

(** ** Data governance *)

Module GovernanceFacts.

Import Governance Scenario.

Lemma ROLES_lookup role allowed :
  ROLES !! role = Some allowed <-> (role, allowed) ∈ ROLES_items.
Proof.
  unfold ROLES. symmetry. apply elem_of_list_to_map.
  apply (bool_decide_unpack (NoDup _)). vm_compute. exact I.
Qed.

Lemma _audit_log_store now self e u d :
  metadata_store (_audit_log now self e u d) = metadata_store self.
Proof. reflexivity. Qed.

(** C9. [check_access] always returns a boolean; [ROLES] defines exactly
    five roles, and the answer is [True] exactly when the role is one of
    them and the action is in that role's permission list.  An unknown
    role, or an action outside the role's list, gives [False]. *)
Theorem check_access_true_iff :
  ROLES_items.*1 =
    ["data_owner"; "quantum_specialist"; "classical_specialist";
     "data_steward"; "compliance_officer"]
  /\ forall (now : string) (self : DataGovernanceManager)
       (user role action : string),
       ((check_access now self user role action).1 = true <->
        exists allowed, (role, allowed) ∈ ROLES_items /\ action ∈ allowed)
       /\ ((check_access now self user role action).1 = false <->
           ROLES !! role = None \/
           exists allowed, ROLES !! role = Some allowed /\ action ∉ allowed).
Proof.
  split; [reflexivity|].
  intros now self user role action. unfold check_access.
  destruct (ROLES !! role) as [allowed|] eqn:Hrole.
  - apply ROLES_lookup in Hrole as Hitem.
    destruct (bool_decide (action ∈ allowed)) eqn:Hact; simpl.
    + apply bool_decide_eq_true in Hact. split; split; try done.
      * eauto.
      * intros [?|(a & Ha & Hn)]; [done|]. congruence.
    + apply bool_decide_eq_false in Hact. split; split; try done.
      * intros (a & Ha & Hin). apply ROLES_lookup in Ha. congruence.
      * eauto.
  - simpl. split; split; try done; [|eauto].
    intros (a & Ha & _). apply ROLES_lookup in Ha. congruence.
Qed.

(** C10. Recording data quality for a dataset identifier that has no
    metadata record returns normally and changes nothing: the metadata
    store and the audit log are the ones before the call. *)
Theorem record_data_quality_absent
    (self : DataGovernanceManager) (dataset_id : string)
    (quality_metrics : list (string * float)) :
  metadata_store self !! dataset_id = None ->
  record_data_quality self dataset_id quality_metrics = self.
Proof. intros Habsent. unfold record_data_quality. by rewrite Habsent. Qed.

Lemma record_data_quality_absent_witness :
  metadata_store demo_manager !! "drug_discovery_002" = None
  /\ record_data_quality demo_manager "drug_discovery_002"
       [("consistency", 0.75%float); ("accuracy", 0.5%float)]
     = demo_manager.
Proof.
  assert (H : metadata_store demo_manager !! "drug_discovery_002" = None)
    by (vm_compute; reflexivity).
  split; [exact H|].
  exact (record_data_quality_absent demo_manager "drug_discovery_002" _ H).
Defined.

End GovernanceFacts.

(** ** The orchestrator: operator and backend adapters *)

Module OrchestratorFacts.

Import Numpy Scipy Orchestrator Scenario NumpyFacts.

Lemma _construct_hamiltonian_ok cfg n w :
  default 2 (ProblemConfig.n_qubits cfg) = n ->
  0 <= n ->
  _construct_hamiltonian cfg w =
    (ok (random_rows (Z.to_nat (2 ^ n)) (Z.to_nat (2 ^ n)) (rng w)).1,
     {| rng := (random_rows (Z.to_nat (2 ^ n)) (Z.to_nat (2 ^ n)) (rng w)).2;
        lists := lists w |}).
Proof.
  intros Hcfg Hn. unfold _construct_hamiltonian, bind, lift.
  rewrite Hcfg, (pow2_int n Hn). unfold ok, with_rng, random_2d.
  assert (Hpos : 0 < 2 ^ n) by (apply Z.pow_pos_nonneg; lia).
  destruct (Z.ltb_spec (2 ^ n) 0); [lia|]. simpl.
  destruct (random_rows _ _ _); reflexivity.
Qed.

Lemma _construct_hamiltonian_negative cfg n w :
  default 2 (ProblemConfig.n_qubits cfg) = n ->
  n < 0 ->
  _construct_hamiltonian cfg w =
    (raise (if float_overflows n
            then OverflowError "int too large to convert to float"
            else TypeError "'float' object cannot be interpreted as an integer"),
     w).
Proof.
  intros Hcfg Hn. unfold _construct_hamiltonian, bind, lift.
  rewrite Hcfg. destruct (float_overflows n) eqn:Hover.
  - by rewrite (pow2_overflow n Hn Hover).
  - destruct (pow2_float n Hn Hover) as [f ->].
    unfold ok, with_rng, random_2d. by destruct w.
Qed.

(** C3. For a problem whose qubit count [n] is not negative (the key's
    value, or the default 2 when the key is absent), the operator is
    built, and it is a square matrix with exactly [2^n] rows of [2^n]
    entries each. *)
Theorem _construct_hamiltonian_dimension
    (cfg : ProblemConfig.t) (n : Z) (w : World) :
  default 2 (ProblemConfig.n_qubits cfg) = n ->
  0 <= n ->
  exists hamiltonian w',
    _construct_hamiltonian cfg w = (ok hamiltonian, w')
    /\ Z.of_nat (length hamiltonian) = 2 ^ n
    /\ Forall (fun row => Z.of_nat (length row) = 2 ^ n) hamiltonian
    /\ shape hamiltonian = (Z.to_nat (2 ^ n), Z.to_nat (2 ^ n)).
Proof.
  intros Hcfg Hn.
  assert (Hpos : 0 < 2 ^ n) by (apply Z.pow_pos_nonneg; lia).
  eexists _, _. split; [apply (_construct_hamiltonian_ok cfg n w Hcfg Hn)|].
  set (d := Z.to_nat (2 ^ n)).
  pose proof (random_rows_length d d (rng w)) as Hlen.
  pose proof (random_rows_width d d (rng w)) as Hwid.
  destruct (random_rows d d (rng w)) as [m rs']; simpl in *.
  split; [subst d; lia|]. split.
  - eapply Forall_impl; [exact Hwid|]. intros row Hr; simpl in Hr.
    subst d; lia.
  - unfold shape. rewrite Hlen. f_equal.
    destruct m as [|row m']; simpl.
    + simpl in Hlen. subst d. lia.
    + by inversion Hwid.
Qed.

(** Three qubits give an 8 x 8 operator, no qubit a 1 x 1 operator. *)
Lemma _construct_hamiltonian_dimension_witness :
  (exists hamiltonian w',
     _construct_hamiltonian (with_n_qubits 3 demo_config) world0
       = (ok hamiltonian, w')
     /\ Z.of_nat (length hamiltonian) = 8
     /\ Forall (fun row => Z.of_nat (length row) = 8) hamiltonian
     /\ shape hamiltonian = (8%nat, 8%nat))
  /\ (exists hamiltonian w',
     _construct_hamiltonian (with_n_qubits 0 demo_config) world0
       = (ok hamiltonian, w')
     /\ Z.of_nat (length hamiltonian) = 1
     /\ Forall (fun row => Z.of_nat (length row) = 1) hamiltonian
     /\ shape hamiltonian = (1%nat, 1%nat)).
Proof.
  split.
  - exact (_construct_hamiltonian_dimension
             (with_n_qubits 3 demo_config) 3 world0 eq_refl
             ltac:(discriminate)).
  - exact (_construct_hamiltonian_dimension
             (with_n_qubits 0 demo_config) 0 world0 eq_refl
             ltac:(discriminate)).
Defined.

Lemma adapters_lookup backend_type :
  adapters !! backend_type =
    if decide (backend_type = "qiskit_simulator") then Some _qiskit_simulator
    else if decide (backend_type = "braket") then Some _aws_braket
    else if decide (backend_type = "cuda_q") then Some _cuda_q
    else None.
Proof.
  unfold adapters; simpl.
  repeat (case_decide; [subst; by simplify_map_eq|]).
  by simplify_map_eq.
Qed.

(** C6. Resolving a backend identifier always returns an adapter: the
    registered adapter when the identifier is one of the three registered
    ones, and the default adapter, [_qiskit_simulator], when it is not, as
    for "nonexistent". *)
Theorem get_backend_adapter_total :
  forall (self : HybridQuantumOrchestrator) (backend_type : string),
    (forall a, adapters !! backend_type = Some a ->
               get_backend_adapter self backend_type = a)
    /\ (adapters !! backend_type = None ->
        get_backend_adapter self backend_type = _qiskit_simulator)
    /\ (is_Some (adapters !! backend_type) <->
        backend_type ∈ ["qiskit_simulator"; "braket"; "cuda_q"])
    /\ adapters !! "nonexistent" = None
    /\ get_backend_adapter self "nonexistent" = _qiskit_simulator.
Proof.
  intros self backend_type. unfold get_backend_adapter.
  split; [by intros a ->|]. split; [by intros ->|]. split.
  - rewrite adapters_lookup. repeat case_decide; subst.
    1-3: split; [intros _; repeat constructor|eauto].
    split; [by intros [? ?]|]. intros Hin.
    repeat (apply elem_of_cons in Hin as [?|Hin]; [done|]).
    by apply elem_of_nil in Hin.
  - rewrite adapters_lookup. by repeat case_decide.
Qed.

End OrchestratorFacts.

(** ** The orchestrator: the cost function and the optimization loop *)

Module WorkflowFacts.

Import Numpy Scipy Orchestrator Scenario NumpyFacts OrchestratorFacts.

Section Bridge.

Variables (hamiltonian : list (list float)) (ansatz : Ansatz).

(** One call of the cost function appends one record to its history
    list, numbered with the length the list had, and leaves every other
    list alone. *)
Lemma cost_function_appends pre hist post params w :
  lists w = pre ++ hist :: post ->
  exists value w',
    cost_function hamiltonian ansatz (length pre) params w = (value, w')
    /\ lists w' =
         pre ++ (hist ++ [{| iteration := length hist;
                             params := params;
                             energy := value |}]) :: post
    /\ cursor (rng w') = S (cursor (rng w)).
Proof.
  intros Hw. unfold cost_function, _quantum_evaluate, random.
  eexists _, _. split; [reflexivity|]. split; [|reflexivity].
  unfold list_append, list_len; simpl. rewrite Hw.
  rewrite list_lookup_middle by reflexivity. simpl.
  rewrite alter_app_r_alt by reflexivity.
  by rewrite Nat.sub_diag.
Qed.

(** A whole run of the optimizer: the history list grows by one record
    per evaluation, numbered consecutively, and the energies recorded
    are the values the optimizer was given, in order. *)
Lemma run_optimizer_history o : forall pre hist post w,
  lists w = pre ++ hist :: post ->
  exists out w' new,
    run_optimizer (cost_function hamiltonian ansatz (length pre)) o w
      = (out, w')
    /\ lists w' = pre ++ (hist ++ new) :: post
    /\ map iteration new = seq (length hist) (length new)
    /\ dialogue o (map energy new) out
    /\ cursor (rng w') = (cursor (rng w) + length new)%nat.
Proof.
  induction o as [point k IH|res|e]; intros pre hist post w Hw.
  - destruct (cost_function_appends pre hist post point w Hw)
      as (value & w1 & Hcost & Hw1 & Hcur1).
    destruct (IH value pre _ post w1 Hw1)
      as (out & w' & new & Hrun & Hw' & Hidx & Hdia & Hcur).
    exists out, w',
      ({| iteration := length hist; params := point; energy := value |}
         :: new).
    cbn [run_optimizer]. rewrite Hcost. split; [exact Hrun|]. split.
    + rewrite Hw'. by rewrite <- app_assoc.
    + split; [|split; [by constructor|simpl; lia]].
      cbn [map length seq iteration]. rewrite Hidx, length_app. simpl.
      by replace (length hist + 1)%nat with (S (length hist)) by lia.
  - exists (ok res), w, []. simpl. rewrite app_nil_r.
    repeat split; [done|constructor|lia].
  - exists (raise e), w, []. simpl. rewrite app_nil_r.
    repeat split; [done|constructor|lia].
Qed.

End Bridge.

Lemma dialogue_call_bound o values out :
  dialogue o values out ->
  forall n, call_bound n o -> (length values <= n)%nat.
Proof.
  induction 1 as [point k value values out _ IH|res|e]; intros n Hn;
    simpl in *; [|lia|lia].
  destruct n as [|n]; [done|]. specialize (IH n (Hn value)). lia.
Qed.

Lemma dialogue_reports_least o values out :
  dialogue o values out ->
  forall seen res,
    reports_least seen o -> out = ok res ->
    py_min (seen ++ values) = Some (fun_ res).
Proof.
  induction 1 as [point k value values out _ IH|res0|e];
    intros seen res Hleast Hout; simpl in *.
  - replace (seen ++ value :: values) with ((seen ++ [value]) ++ values)
      by (by rewrite <- app_assoc).
    by apply IH.
  - rewrite app_nil_r. unfold ok in Hout. congruence.
  - discriminate.
Qed.

Section Execution.

Variable minimize : list float -> Z -> Optimizer.

(** A negative qubit count stops the workflow in operator construction,
    with the world untouched: NumPy refuses the float [2**n] as a
    dimension, or [2**n] itself cannot be computed. *)
Lemma execute_negative_qubits self cfg max_iterations w :
  default 2 (ProblemConfig.n_qubits cfg) < 0 ->
  execute_vqe_workflow minimize self cfg max_iterations w =
    (raise (if float_overflows (default 2 (ProblemConfig.n_qubits cfg))
            then OverflowError "int too large to convert to float"
            else TypeError "'float' object cannot be interpreted as an integer"),
     w).
Proof.
  intros Hn. unfold execute_vqe_workflow, bind.
  by rewrite (_construct_hamiltonian_negative cfg _ w eq_refl Hn).
Qed.

(** A negative parameter count stops it when the initial point is drawn:
    the operator has been built, no list has been created. *)
Lemma execute_negative_parameters self cfg max_iterations w n :
  default 2 (ProblemConfig.n_qubits cfg) = n ->
  0 <= n ->
  default 4 (ProblemConfig.num_parameters cfg) < 0 ->
  exists w',
    execute_vqe_workflow minimize self cfg max_iterations w =
      (raise (ValueError "negative dimensions are not allowed"), w')
    /\ lists w' = lists w
    /\ Z.of_nat (cursor (rng w')) =
         Z.of_nat (cursor (rng w)) + 2 ^ n * 2 ^ n.
Proof.
  intros Hcfg Hn Hp. unfold execute_vqe_workflow, bind.
  rewrite (_construct_hamiltonian_ok cfg n w Hcfg Hn).
  unfold with_rng at 1, random_1d.
  destruct (Z.ltb_spec (default 4 (ProblemConfig.num_parameters cfg)) 0);
    [|lia].
  eexists. split; [reflexivity|]. split; [reflexivity|]. simpl.
  rewrite random_rows_cursor.
  assert (0 < 2 ^ n) by (apply Z.pow_pos_nonneg; lia). nia.
Qed.

(** With counts that are not negative the optimizer is started; the
    workflow ends the way the optimizer ends. *)
Lemma execute_runs_optimizer self cfg max_iterations w n p :
  default 2 (ProblemConfig.n_qubits cfg) = n ->
  0 <= n ->
  default 4 (ProblemConfig.num_parameters cfg) = p ->
  0 <= p ->
  exists init_params hist out w',
    Z.of_nat (length init_params) = p
    /\ dialogue (minimize init_params max_iterations)
         (map energy hist) out
    /\ execute_vqe_workflow minimize self cfg max_iterations w =
         (match out with
          | inl e => inl e
          | inr res =>
              let r :=
                {| WorkflowResult.backend := backend_type self;
                   WorkflowResult.problem := cfg;
                   WorkflowResult.optimal_params := x res;
                   WorkflowResult.minimum_energy := fun_ res;
                   WorkflowResult.iterations := length (lists w);
                   WorkflowResult.success := success res |} in
              inr (r, {| backend_type := backend_type self;
                         execution_history :=
                           execution_history self ++ [r] |})
          end, w')
    /\ lists w' = lists w ++ [hist]
    /\ map iteration hist = seq 0 (length hist)
    /\ Z.of_nat (cursor (rng w')) =
         Z.of_nat (cursor (rng w)) + 2 ^ n * 2 ^ n + p
         + Z.of_nat (length hist).
Proof.
  intros Hcfg Hn Hpar Hp. unfold execute_vqe_workflow, bind.
  rewrite (_construct_hamiltonian_ok cfg n w Hcfg Hn).
  set (d := Z.to_nat (2 ^ n)).
  pose proof (random_rows_cursor d d (rng w)) as Hcur1.
  destruct (random_rows d d (rng w)) as [hamiltonian rs1]; simpl in Hcur1.
  unfold with_rng at 1, random_1d. rewrite Hpar. cbn [rng lists fst snd].
  destruct (Z.ltb_spec p 0); [lia|].
  pose proof (random_vector_length (Z.to_nat p) rs1) as Hlen.
  pose proof (random_vector_cursor (Z.to_nat p) rs1) as Hcur2.
  destruct (random_vector (Z.to_nat p) rs1) as [init_params rs2].
  simpl in Hlen, Hcur2. unfold new_list; cbn [rng lists].
  destruct (run_optimizer_history hamiltonian (_construct_ansatz cfg)
              (minimize init_params max_iterations)
              (lists w) [] []
              {| rng := rs2; lists := lists w ++ [[]] |} eq_refl)
    as (out & w' & hist & Hrun & Hw' & Hidx & Hdia & Hcur3).
  exists init_params, hist, out, w'.
  unfold ok, ret. cbv beta iota. rewrite Hrun.
  split; [lia|]. split; [exact Hdia|]. split.
  - destruct out as [e|res]; reflexivity.
  - split; [exact Hw'|]. split; [exact Hidx|].
    simpl in Hcur3.
    assert (0 < 2 ^ n) by (apply Z.pow_pos_nonneg; lia).
    subst d. nia.
Qed.

(** What a completed execution looks like. *)
Lemma execute_completed self cfg max_iterations w r self' w' :
  execute_vqe_workflow minimize self cfg max_iterations w
    = (ok (r, self'), w') ->
  exists init_params hist res,
    dialogue (minimize init_params max_iterations)
      (map energy hist) (ok res)
    /\ r = {| WorkflowResult.backend := backend_type self;
              WorkflowResult.problem := cfg;
              WorkflowResult.optimal_params := x res;
              WorkflowResult.minimum_energy := fun_ res;
              WorkflowResult.iterations := length (lists w);
              WorkflowResult.success := success res |}
    /\ self' = {| backend_type := backend_type self;
                  execution_history := execution_history self ++ [r] |}
    /\ lists w' = lists w ++ [hist]
    /\ map iteration hist = seq 0 (length hist).
Proof.
  intros Hexec.
  destruct (Z.lt_ge_cases (default 2 (ProblemConfig.n_qubits cfg)) 0)
    as [Hn|Hn].
  { rewrite execute_negative_qubits in Hexec by exact Hn. discriminate. }
  destruct (Z.lt_ge_cases (default 4 (ProblemConfig.num_parameters cfg)) 0)
    as [Hp|Hp].
  { destruct (execute_negative_parameters self cfg max_iterations w _
                eq_refl Hn Hp) as (w1 & Heq & _).
    rewrite Heq in Hexec. discriminate. }
  destruct (execute_runs_optimizer self cfg max_iterations w _ _
              eq_refl Hn eq_refl Hp)
    as (init_params & hist & out & w1 & _ & Hdia & Heq & Hw1 & Hidx & _).
  rewrite Heq in Hexec. destruct out as [e|res]; [discriminate|].
  unfold ok in Hexec. injection Hexec as Hr Hself Hw. subst w1.
  exists init_params, hist, res. subst r. by subst self'.
Qed.

End Execution.

(** The history of a completed execution, read from the store. *)
Lemma lookup_new_list (store : list (list EvaluationRecord)) hist :
  (store ++ [hist]) !! length store = Some hist.
Proof. by apply list_lookup_middle. Qed.

Lemma py_min_snoc seen best value :
  py_min seen = Some best ->
  py_min (seen ++ [value]) =
    Some (if PrimFloat.ltb value best then value else best).
Proof.
  destruct seen as [|v0 rest]; [discriminate|]. simpl.
  intros [= <-]. by rewrite fold_left_app.
Qed.

(** The two optimizers of [Scenario]. *)
Lemma search_call_bound budget : forall trial best best_value,
  call_bound budget (search budget trial best best_value).
Proof.
  induction budget as [|budget IH]; intros trial best best_value; simpl;
    [exact I|].
  intros value. destruct (PrimFloat.ltb value best_value); apply IH.
Qed.

Lemma greedy_minimize_call_bound x0 maxiter :
  call_bound (S (Z.to_nat maxiter)) (greedy_minimize x0 maxiter).
Proof. simpl. intros value. apply search_call_bound. Qed.

Lemma search_reports_least budget : forall seen trial best best_value,
  py_min seen = Some best_value ->
  reports_least seen (search budget trial best best_value).
Proof.
  induction budget as [|budget IH]; intros seen trial best best_value Hmin;
    simpl; [exact Hmin|].
  intros value. pose proof (py_min_snoc seen best_value value Hmin) as Hs.
  destruct (PrimFloat.ltb value best_value); by apply IH.
Qed.

Lemma greedy_minimize_reports_least x0 maxiter :
  reports_least [] (greedy_minimize x0 maxiter).
Proof. simpl. intros value. by apply search_reports_least. Qed.

Lemma search_returns budget : forall trial best best_value values out,
  dialogue (search budget trial best best_value) values out ->
  exists res, out = ok res /\ success res = false.
Proof.
  induction budget as [|budget IH];
    intros trial best best_value values out; simpl.
  - inversion 1; subst. eauto.
  - inversion 1 as [? ? v ? ? Hnext| |]; subst.
    destruct (PrimFloat.ltb v best_value); eapply IH; exact Hnext.
Qed.

Lemma greedy_minimize_returns x0 maxiter values out :
  dialogue (greedy_minimize x0 maxiter) values out ->
  exists res, out = ok res /\ success res = false.
Proof.
  unfold greedy_minimize. inversion 1 as [? ? value rest ? Hrest| |]; subst.
  eapply search_returns; exact Hrest.
Qed.

End WorkflowFacts.

(** ** The orchestrator: properties of a workflow execution *)

Module WorkflowProperties.

Import Numpy Scipy Orchestrator Scenario WorkflowFacts.

(** C4. Every call of the cost function appends exactly one record to the
    execution's history list, and the record's index is the number of
    records that were already there; nothing else in the store changes.
    So in a completed execution the indices of the history are exactly
    0, 1, 2, ... in order. *)
Theorem history_indices_consecutive :
  (forall hamiltonian ansatz (pre post : list (list EvaluationRecord))
      (hist : list EvaluationRecord) (params : list float) (w : World),
      lists w = pre ++ hist :: post ->
      exists value w',
        cost_function hamiltonian ansatz (length pre) params w = (value, w')
        /\ lists w' =
             pre ++ (hist ++ [{| iteration := length hist;
                                 params := params;
                                 energy := value |}]) :: post)
  /\ (forall minimize self cfg max_iterations w r self' w',
      execute_vqe_workflow minimize self cfg max_iterations w
        = (ok (r, self'), w') ->
      exists hist,
        lists w' !! WorkflowResult.iterations r = Some hist
        /\ map iteration hist = seq 0 (length hist)).
Proof.
  split.
  - intros hamiltonian ansatz pre post hist params w Hw.
    destruct (cost_function_appends hamiltonian ansatz pre hist post
                params w Hw) as (value & w' & Hcost & Hw' & _).
    eauto.
  - intros minimize self cfg max_iterations w r self' w' Hexec.
    destruct (execute_completed minimize self cfg max_iterations w r self' w'
                Hexec) as (x0 & hist & res & _ & Hr & _ & Hw' & Hidx).
    exists hist. subst r; simpl. rewrite Hw'.
    split; [apply lookup_new_list|exact Hidx].
Qed.

Lemma history_indices_consecutive_witness :
  (exists value w',
     cost_function [] (_construct_ansatz demo_config) 0%nat
       [0.5%float] {| rng := cycle4; lists := [[]] |} = (value, w')
     /\ lists w' =
          [[{| iteration := 0%nat; params := [0.5%float];
               energy := value |}]])
  /\ (exists r self' w' hist,
     execute_vqe_workflow greedy_minimize orchestrator0 demo_config 2 world0
       = (ok (r, self'), w')
     /\ lists w' !! WorkflowResult.iterations r = Some hist
     /\ map iteration hist = [0; 1; 2]%nat).
Proof.
  split.
  - exact (proj1 history_indices_consecutive
             [] (_construct_ansatz demo_config) [] [] [] [0.5%float]
             {| rng := cycle4; lists := [[]] |} eq_refl).
  - eassert (Hrun : execute_vqe_workflow greedy_minimize orchestrator0
                      demo_config 2 world0 = (ok (_, _), _))
      by (lazy; reflexivity).
    eexists _, _, _.
    destruct (proj2 history_indices_consecutive _ _ _ _ _ _ _ _ Hrun)
      as (hist & Hlook & Hidx).
    exists hist. split; [exact Hrun|]. split; [exact Hlook|].
    simpl in Hlook. injection Hlook as <-. reflexivity.
Defined.

(** The iteration cap is handed to the optimizer unchanged, and the
    history holds one record per cost-function call.  So when the
    optimizer calls the cost function at most [max_iterations] times, plus
    at most one more for the initial point, the history of the execution
    has at most [max_iterations + 1] records. *)
Theorem history_length_bounded
    (minimize : list float -> Z -> Optimizer)
    (self : HybridQuantumOrchestrator) (cfg : ProblemConfig.t)
    (max_iterations : Z) (bound : nat) (w : World)
    (r : WorkflowResult.t) (self' : HybridQuantumOrchestrator) (w' : World) :
  (forall x0, call_bound bound (minimize x0 max_iterations)) ->
  Z.of_nat bound <= max_iterations + 1 ->
  execute_vqe_workflow minimize self cfg max_iterations w
    = (ok (r, self'), w') ->
  exists hist,
    lists w' !! WorkflowResult.iterations r = Some hist
    /\ Z.of_nat (length hist) <= max_iterations + 1.
Proof.
  intros Hcap Hbound Hexec.
  destruct (execute_completed minimize self cfg max_iterations w r self' w'
              Hexec) as (x0 & hist & res & Hdia & Hr & _ & Hw' & _).
  exists hist. subst r; simpl. rewrite Hw'.
  split; [apply lookup_new_list|].
  pose proof (dialogue_call_bound _ _ _ Hdia bound (Hcap x0)) as Hlen.
  rewrite length_map in Hlen. lia.
Qed.

Lemma history_length_bounded_witness :
  exists r self' w' hist,
    execute_vqe_workflow greedy_minimize orchestrator0 demo_config 2 world0
      = (ok (r, self'), w')
    /\ lists w' !! WorkflowResult.iterations r = Some hist
    /\ Z.of_nat (length hist) <= 2 + 1.
Proof.
  eassert (Hrun : execute_vqe_workflow greedy_minimize orchestrator0
                    demo_config 2 world0 = (ok (_, _), _))
    by (lazy; reflexivity).
  eexists _, _, _.
  destruct (history_length_bounded greedy_minimize orchestrator0 demo_config
              2 3 world0 _ _ _
              (fun x0 => greedy_minimize_call_bound x0 2)
              ltac:(lia) Hrun) as (hist & Hlook & Hlen).
  exists hist. split; [exact Hrun|]. split; assumption.
Defined.

(** The [minimum_energy] of a completed execution is the value the
    optimizer reports as [fun]; the workflow
    does not derive it from the history.  The energies in the history are
    the values the optimizer was given, in order, so [minimum_energy] is
    the minimum over the history whenever the optimizer reports the least
    value it was given. *)
Theorem minimum_energy_reported_by_optimizer
    (minimize : list float -> Z -> Optimizer)
    (self : HybridQuantumOrchestrator) (cfg : ProblemConfig.t)
    (max_iterations : Z) (w : World)
    (r : WorkflowResult.t) (self' : HybridQuantumOrchestrator) (w' : World) :
  execute_vqe_workflow minimize self cfg max_iterations w
    = (ok (r, self'), w') ->
  exists init_params hist res,
    lists w' !! WorkflowResult.iterations r = Some hist
    /\ dialogue (minimize init_params max_iterations)
         (map energy hist) (ok res)
    /\ WorkflowResult.minimum_energy r = fun_ res
    /\ (reports_least [] (minimize init_params max_iterations) ->
        py_min (map energy hist) = Some (WorkflowResult.minimum_energy r)).
Proof.
  intros Hexec.
  destruct (execute_completed minimize self cfg max_iterations w r self' w'
              Hexec) as (x0 & hist & res & Hdia & Hr & _ & Hw' & _).
  exists x0, hist, res. subst r; simpl. rewrite Hw'.
  split; [apply lookup_new_list|]. split; [exact Hdia|].
  split; [reflexivity|]. intros Hleast.
  exact (dialogue_reports_least _ _ _ Hdia [] res Hleast eq_refl).
Qed.

Lemma minimum_energy_reported_by_optimizer_witness :
  exists r self' w' hist,
    execute_vqe_workflow greedy_minimize orchestrator0 demo_config 2 world0
      = (ok (r, self'), w')
    /\ lists w' !! WorkflowResult.iterations r = Some hist
    /\ py_min (map energy hist) = Some (WorkflowResult.minimum_energy r).
Proof.
  eassert (Hrun : execute_vqe_workflow greedy_minimize orchestrator0
                    demo_config 2 world0 = (ok (_, _), _))
    by (lazy; reflexivity).
  eexists _, _, _.
  destruct (minimum_energy_reported_by_optimizer _ _ _ _ _ _ _ _ Hrun)
    as (x0 & hist & res & Hlook & _ & _ & Hmin).
  exists hist. split; [exact Hrun|]. split; [exact Hlook|].
  apply Hmin, greedy_minimize_reports_least.
Defined.

(** C7. The optimizer is started whenever the qubit and parameter counts
    are not negative.  If it returns, the workflow completes: it produces
    a full result that carries the optimizer's point, value and [success]
    flag as they are, whatever the flag is, and logs the result.  The
    workflow fails only when the optimizer itself raises. *)
Theorem workflow_completes_whatever_converged
    (minimize : list float -> Z -> Optimizer)
    (self : HybridQuantumOrchestrator) (cfg : ProblemConfig.t)
    (max_iterations : Z) (w : World) (n p : Z) :
  default 2 (ProblemConfig.n_qubits cfg) = n ->
  0 <= n ->
  default 4 (ProblemConfig.num_parameters cfg) = p ->
  0 <= p ->
  exists init_params hist out w',
    dialogue (minimize init_params max_iterations) (map energy hist) out
    /\ (forall res, out = ok res ->
        exists r self',
          execute_vqe_workflow minimize self cfg max_iterations w
            = (ok (r, self'), w')
          /\ WorkflowResult.success r = success res
          /\ WorkflowResult.minimum_energy r = fun_ res
          /\ WorkflowResult.optimal_params r = x res
          /\ WorkflowResult.problem r = cfg
          /\ WorkflowResult.backend r = backend_type self
          /\ lists w' !! WorkflowResult.iterations r = Some hist
          /\ execution_history self' = execution_history self ++ [r])
    /\ (forall e, out = raise e ->
        execute_vqe_workflow minimize self cfg max_iterations w
          = (raise e, w')).
Proof.
  intros Hcfg Hn Hpar Hp.
  destruct (execute_runs_optimizer minimize self cfg max_iterations w n p
              Hcfg Hn Hpar Hp)
    as (x0 & hist & out & w' & _ & Hdia & Heq & Hw' & _).
  exists x0, hist, out, w'. split; [exact Hdia|]. split.
  - intros res ->. eexists _, _. split; [exact Heq|]. simpl.
    rewrite Hw'. repeat split. apply lookup_new_list.
  - intros e ->. exact Heq.
Qed.

(** A run in which the optimizer does not converge still completes. *)
Lemma workflow_completes_whatever_converged_witness :
  exists r self' w',
    execute_vqe_workflow greedy_minimize orchestrator0 demo_config 2 world0
      = (ok (r, self'), w')
    /\ WorkflowResult.success r = false
    /\ execution_history self' = [r].
Proof.
  destruct (workflow_completes_whatever_converged greedy_minimize
              orchestrator0 demo_config 2 world0 2 4
              eq_refl ltac:(lia) eq_refl ltac:(lia))
    as (x0 & hist & out & w' & Hdia & Hret & _).
  destruct (greedy_minimize_returns _ _ _ _ Hdia) as (res & Hout & Hflag).
  destruct (Hret res Hout)
    as (r & self' & Hexec & Hsucc & _ & _ & _ & _ & _ & Hlog).
  exists r, self', w'. split; [exact Hexec|]. split; [congruence|exact Hlog].
Defined.

(** C8. Two executions, one after the other, on the same orchestrator:
    each has a history list of its own.  The second list is a new object,
    its indices start at 0 again, and the first list holds after the
    second execution exactly the records it held before.  The orchestrator
    has logged both results, in order. *)
Theorem sequential_executions_independent
    (minimize : list float -> Z -> Optimizer)
    (self : HybridQuantumOrchestrator)
    (cfg1 cfg2 : ProblemConfig.t) (max1 max2 : Z) (w : World)
    (r1 r2 : WorkflowResult.t) (self1 self2 : HybridQuantumOrchestrator)
    (w1 w2 : World) :
  execute_vqe_workflow minimize self cfg1 max1 w = (ok (r1, self1), w1) ->
  execute_vqe_workflow minimize self1 cfg2 max2 w1 = (ok (r2, self2), w2) ->
  WorkflowResult.iterations r1 <> WorkflowResult.iterations r2
  /\ (exists hist1,
        lists w1 !! WorkflowResult.iterations r1 = Some hist1
        /\ lists w2 !! WorkflowResult.iterations r1 = Some hist1
        /\ map iteration hist1 = seq 0 (length hist1))
  /\ (exists hist2,
        lists w1 !! WorkflowResult.iterations r2 = None
        /\ lists w2 !! WorkflowResult.iterations r2 = Some hist2
        /\ map iteration hist2 = seq 0 (length hist2))
  /\ execution_history self2 = execution_history self ++ [r1; r2].
Proof.
  intros Hexec1 Hexec2.
  destruct (execute_completed minimize self cfg1 max1 w r1 self1 w1 Hexec1)
    as (x1 & hist1 & res1 & _ & Hr1 & Hself1 & Hw1 & Hidx1).
  destruct (execute_completed minimize self1 cfg2 max2 w1 r2 self2 w2 Hexec2)
    as (x2 & hist2 & res2 & _ & Hr2 & Hself2 & Hw2 & Hidx2).
  assert (Hl1 : WorkflowResult.iterations r1 = length (lists w))
    by (by rewrite Hr1).
  assert (Hl2 : WorkflowResult.iterations r2 = length (lists w1))
    by (by rewrite Hr2).
  rewrite Hl1, Hl2.
  assert (Hlen : length (lists w1) = S (length (lists w)))
    by (rewrite Hw1, length_app; simpl; lia).
  split; [lia|]. split; [|split].
  - exists hist1. split; [rewrite Hw1; apply lookup_new_list|].
    split; [|exact Hidx1].
    rewrite Hw2, Hw1, <- app_assoc. by apply list_lookup_middle.
  - exists hist2. split; [by apply lookup_ge_None_2|].
    split; [rewrite Hw2; apply lookup_new_list|exact Hidx2].
  - rewrite Hself2, Hself1. simpl. by rewrite <- app_assoc.
Qed.

Lemma sequential_executions_independent_witness :
  exists r1 self1 w1 r2 self2 w2 hist1 hist2,
    execute_vqe_workflow greedy_minimize orchestrator0 demo_config 2 world0
      = (ok (r1, self1), w1)
    /\ execute_vqe_workflow greedy_minimize self1
         (with_num_parameters 1 demo_config) 1 w1
       = (ok (r2, self2), w2)
    /\ WorkflowResult.iterations r1 <> WorkflowResult.iterations r2
    /\ lists w1 !! WorkflowResult.iterations r1 = Some hist1
    /\ lists w2 !! WorkflowResult.iterations r1 = Some hist1
    /\ lists w2 !! WorkflowResult.iterations r2 = Some hist2
    /\ map iteration hist1 = [0; 1; 2]%nat
    /\ map iteration hist2 = [0; 1]%nat
    /\ execution_history self2 = [r1; r2].
Proof.
  eassert (Hrun1 : execute_vqe_workflow greedy_minimize orchestrator0
                     demo_config 2 world0 = (ok (_, _), _))
    by (lazy; reflexivity).
  match type of Hrun1 with
  | _ = (ok (_, ?self1), ?w1) =>
      eassert (Hrun2 : execute_vqe_workflow greedy_minimize self1
                         (with_num_parameters 1 demo_config) 1 w1
                       = (ok (_, _), _))
        by (lazy; reflexivity)
  end.
  destruct (sequential_executions_independent _ _ _ _ _ _ _ _ _ _ _ _ _
              Hrun1 Hrun2)
    as (Hneq & (hist1 & Hl1 & Hl1' & Hidx1) & (hist2 & _ & Hl2 & Hidx2)
        & Hlog).
  eexists _, _, _, _, _, _, hist1, hist2.
  split; [exact Hrun1|]. split; [exact Hrun2|]. split; [exact Hneq|].
  split; [exact Hl1|]. split; [exact Hl1'|]. split; [exact Hl2|].
  split; [|split; [|exact Hlog]].
  - simpl in Hl1. injection Hl1 as <-. reflexivity.
  - simpl in Hl2. injection Hl2 as <-. reflexivity.
Defined.

(** C2, as the code has it.  The workflow checks nothing itself.  A
    negative qubit count fails in operator construction, with nothing
    drawn or evaluated: with a [TypeError], because NumPy refuses the
    float [2**n] as a dimension, or with an [OverflowError] when n is so
    large a negative number ([-n >= 2^1024 - 2^970]) that Python cannot
    compute [2**n].  A negative parameter count raises a [ValueError]
    when the initial point is drawn: the operator has been constructed by then, nothing
    has been evaluated and no history list exists.  Counts that are not
    negative, zero included, and any repetition count are accepted: the
    repetition count is stored as given and the optimizer is started on
    an initial point of exactly [num_parameters] entries. *)
Theorem spec_counts_checked_by_numpy_only
    (minimize : list float -> Z -> Optimizer)
    (self : HybridQuantumOrchestrator) (cfg : ProblemConfig.t)
    (max_iterations : Z) (w : World) (n p : Z) :
  default 2 (ProblemConfig.n_qubits cfg) = n ->
  default 4 (ProblemConfig.num_parameters cfg) = p ->
  (n < 0 ->
   execute_vqe_workflow minimize self cfg max_iterations w =
     (raise (if 2 ^ 1024 - 2 ^ 970 <=? - n
             then OverflowError "int too large to convert to float"
             else TypeError
                    "'float' object cannot be interpreted as an integer"),
      w))
  /\ (0 <= n -> p < 0 ->
      exists w',
        execute_vqe_workflow minimize self cfg max_iterations w =
          (raise (ValueError "negative dimensions are not allowed"), w')
        /\ lists w' = lists w
        /\ Z.of_nat (cursor (rng w')) =
             Z.of_nat (cursor (rng w)) + 2 ^ n * 2 ^ n)
  /\ (0 <= n -> 0 <= p ->
      reps (_construct_ansatz cfg) = default 2 (ProblemConfig.ansatz_reps cfg)
      /\ exists init_params hist out w',
           Z.of_nat (length init_params) = p
           /\ dialogue (minimize init_params max_iterations)
                (map energy hist) out
           /\ (execute_vqe_workflow minimize self cfg max_iterations w).2
              = w'
           /\ lists w' = lists w ++ [hist]
           /\ (forall e,
                 (execute_vqe_workflow minimize self cfg max_iterations w).1
                   = raise e -> out = raise e)).
Proof.
  intros Hcfg Hpar. split; [|split].
  - intros Hn. rewrite execute_negative_qubits by (by rewrite Hcfg).
    rewrite Hcfg. unfold float_overflows.
    by replace (Z.abs n) with (- n) by lia.
  - intros Hn Hp. apply execute_negative_parameters; [done|done|].
    by rewrite Hpar.
  - intros Hn Hp. split; [reflexivity|].
    destruct (execute_runs_optimizer minimize self cfg max_iterations w n p
                Hcfg Hn Hpar Hp)
      as (x0 & hist & out & w' & Hlen & Hdia & Heq & Hw' & _).
    exists x0, hist, out, w'. rewrite Heq. simpl.
    repeat split; try done.
    intros e. destruct out as [e'|res]; [by intros [= ->]|discriminate].
Qed.

Lemma spec_counts_checked_by_numpy_only_witness :
  execute_vqe_workflow greedy_minimize orchestrator0
    (with_n_qubits (-1) demo_config) 20 world0 =
    (raise (TypeError "'float' object cannot be interpreted as an integer"),
     world0)
  /\ execute_vqe_workflow greedy_minimize orchestrator0
       (with_n_qubits (- 2 ^ 1024) demo_config) 20 world0 =
       (raise (OverflowError "int too large to convert to float"), world0)
  /\ (exists w',
       execute_vqe_workflow greedy_minimize orchestrator0
         (with_num_parameters (-1) demo_config) 20 world0 =
         (raise (ValueError "negative dimensions are not allowed"), w')
       /\ lists w' = []
       /\ Z.of_nat (cursor (rng w')) = 16)
  /\ (exists init_params hist out w',
       Z.of_nat (length init_params) = 0
       /\ dialogue (greedy_minimize init_params 20) (map energy hist) out
       /\ lists w' = [hist]).
Proof.
  split; [|split; [|split]].
  - exact (proj1 (spec_counts_checked_by_numpy_only greedy_minimize
                    orchestrator0 (with_n_qubits (-1) demo_config) 20 world0
                    (-1) 4 eq_refl eq_refl) ltac:(lia)).
  - exact (proj1 (spec_counts_checked_by_numpy_only greedy_minimize
                    orchestrator0 (with_n_qubits (- 2 ^ 1024) demo_config) 20
                    world0 (- 2 ^ 1024) 4 eq_refl eq_refl) ltac:(lia)).
  - exact (proj1 (proj2 (spec_counts_checked_by_numpy_only greedy_minimize
                    orchestrator0 (with_num_parameters (-1) demo_config) 20
                    world0 2 (-1) eq_refl eq_refl)) ltac:(lia) ltac:(lia)).
  - destruct (proj2 (proj2 (spec_counts_checked_by_numpy_only greedy_minimize
                    orchestrator0 (with_num_parameters 0 demo_config) 20
                    world0 2 0 eq_refl eq_refl)) ltac:(lia) ltac:(lia))
      as (_ & x0 & hist & out & w' & Hlen & Hdia & _ & Hw' & _).
    exists x0, hist, out, w'. repeat split; assumption.
Defined.

(** C2, as stated, fails.  With [num_parameters = 0], and with
    [ansatz_reps = 0], the operator is constructed whatever the optimizer
    does: no execution, with any optimizer, ends in the world it started
    in.  With the sample optimizer both runs complete, with three
    evaluations in their histories. *)
Lemma invalid_spec_not_rejected :
  (exists r self' w' hist,
     execute_vqe_workflow greedy_minimize orchestrator0
       (with_num_parameters 0 demo_config) 2 world0 = (ok (r, self'), w')
     /\ lists w' !! WorkflowResult.iterations r = Some hist
     /\ length hist = 3%nat
     /\ cursor (rng w') = 19%nat)
  /\ (exists r self' w' hist,
     execute_vqe_workflow greedy_minimize orchestrator0
       (with_ansatz_reps 0 demo_config) 2 world0 = (ok (r, self'), w')
     /\ lists w' !! WorkflowResult.iterations r = Some hist
     /\ length hist = 3%nat)
  /\ ~ (exists minimize out,
         execute_vqe_workflow minimize orchestrator0
           (with_num_parameters 0 demo_config) 2 world0 = (out, world0))
  /\ ~ (exists minimize out,
         execute_vqe_workflow minimize orchestrator0
           (with_ansatz_reps 0 demo_config) 2 world0 = (out, world0)).
Proof.
  split; [|split; [|split]].
  - eexists _, _, _, _. repeat split; lazy; reflexivity.
  - eexists _, _, _, _. repeat split; lazy; reflexivity.
  - intros (minimize & out & Hexec).
    destruct (execute_runs_optimizer minimize orchestrator0
                (with_num_parameters 0 demo_config) 2 world0 2 0
                eq_refl ltac:(lia) eq_refl ltac:(lia))
      as (x0 & hist & out' & w' & _ & _ & Heq & _ & _ & Hcur).
    rewrite Heq in Hexec. injection Hexec as _ Hw. subst w'.
    simpl in Hcur. lia.
  - intros (minimize & out & Hexec).
    destruct (execute_runs_optimizer minimize orchestrator0
                (with_ansatz_reps 0 demo_config) 2 world0 2 4
                eq_refl ltac:(lia) eq_refl ltac:(lia))
      as (x0 & hist & out' & w' & _ & _ & Heq & _ & _ & Hcur).
    rewrite Heq in Hexec. injection Hexec as _ Hw. subst w'.
    simpl in Hcur. lia.
Qed.

End WorkflowProperties.

(** * Further properties *)

(** ** Ordered dicts *)

Module PyDictFacts.

Section Dict.

Context {V : Type}.

Implicit Types (d : PyDict.dict V) (k : string) (v : V).

Lemma get_set_eq k v d : PyDict.get k (PyDict.set k v d) = Some v.
Proof.
  induction d as [|[k' v'] d IH]; simpl.
  - by rewrite decide_True.
  - destruct (decide (k = k')) as [->|Hne]; simpl.
    + by rewrite decide_True.
    + by rewrite decide_False.
Qed.

Lemma get_set_ne k k' v d :
  k' <> k -> PyDict.get k' (PyDict.set k v d) = PyDict.get k' d.
Proof.
  intros Hne. induction d as [|[k0 v0] d IH]; simpl.
  - by rewrite decide_False.
  - destruct (decide (k = k0)) as [->|Hk]; simpl.
    + by rewrite !decide_False.
    + destruct (decide (k' = k0)); [done|exact IH].
Qed.

Lemma get_None k d : PyDict.get k d = None <-> k ∉ PyDict.keys d.
Proof.
  unfold PyDict.keys. induction d as [|[k' v'] d IH]; simpl.
  - split; [intros _; apply not_elem_of_nil|done].
  - rewrite not_elem_of_cons. destruct (decide (k = k')) as [->|Hne].
    + split; [done|]. by intros [? _].
    + rewrite IH. tauto.
Qed.

Lemma keys_set_present k v d :
  k ∈ PyDict.keys d -> PyDict.keys (PyDict.set k v d) = PyDict.keys d.
Proof.
  unfold PyDict.keys. induction d as [|[k' v'] d IH]; simpl.
  - intros Hin. by apply elem_of_nil in Hin.
  - intros Hin. destruct (decide (k = k')) as [->|Hne]; simpl; [done|].
    apply elem_of_cons in Hin as [?|Hin]; [done|]. f_equal. by apply IH.
Qed.

Lemma keys_set_absent k v d :
  k ∉ PyDict.keys d -> PyDict.keys (PyDict.set k v d) = PyDict.keys d ++ [k].
Proof.
  unfold PyDict.keys. induction d as [|[k' v'] d IH]; simpl; [done|].
  rewrite not_elem_of_cons. intros [Hne Hnin].
  rewrite decide_False by done. simpl. f_equal. by apply IH.
Qed.

Lemma keys_set_NoDup k v d :
  NoDup (PyDict.keys d) -> NoDup (PyDict.keys (PyDict.set k v d)).
Proof.
  intros Hnd. destruct (decide (k ∈ PyDict.keys d)) as [Hin|Hnin].
  - by rewrite keys_set_present.
  - rewrite keys_set_absent by done. apply NoDup_app.
    split; [done|]. split; [|apply NoDup_singleton].
    intros x Hx Hk. apply list_elem_of_singleton in Hk. by subst.
Qed.

End Dict.

End PyDictFacts.

(** ** The plugin registry *)

Module PluginFacts.

Import PyNum Plugins PyDictFacts.

Section Registry.

Context {A : Type}.

Implicit Types (self : PluginRegistry A) (cs : list (registration A)).

(** X1. A registered backend is what [get_quantum_backend] returns for its
    name, whatever was registered under that name before; every other name
    resolves as before, and the domain plugins are untouched.  The same
    holds for domain plugins and [get_domain_plugin]. *)
Theorem register_then_get self name adapter_class domain template flows :
  get_quantum_backend (register_quantum_backend self name adapter_class) name
    = Some adapter_class
  /\ (forall other, other <> name ->
        get_quantum_backend
          (register_quantum_backend self name adapter_class) other
          = get_quantum_backend self other)
  /\ (forall d,
        get_domain_plugin (register_quantum_backend self name adapter_class) d
          = get_domain_plugin self d)
  /\ get_domain_plugin (register_domain_plugin self domain template flows)
       domain
       = Some {| kpi_template := template; workflows := flows |}
  /\ (forall other, other <> domain ->
        get_domain_plugin (register_domain_plugin self domain template flows)
          other = get_domain_plugin self other)
  /\ (forall n,
        get_quantum_backend
          (register_domain_plugin self domain template flows) n
          = get_quantum_backend self n).
Proof.
  unfold get_quantum_backend, get_domain_plugin; simpl.
  split; [apply get_set_eq|]. split; [intros; by apply get_set_ne|].
  split; [done|]. split; [apply get_set_eq|].
  split; [intros; by apply get_set_ne|done].
Qed.


(** X3. Registering a backend under a name that is listed leaves the list
    of available backends as it is (the entry is replaced in place);
    under a new name the name is added at the end. *)
Theorem list_available_backends_register self name adapter_class :
  list_available_backends (register_quantum_backend self name adapter_class)
  = if decide (name ∈ list_available_backends self)
    then list_available_backends self
    else list_available_backends self ++ [name].
Proof.
  unfold list_available_backends; simpl. case_decide.
  - by apply keys_set_present.
  - by apply keys_set_absent.
Qed.

Lemma register_NoDup self c :
  NoDup (list_available_backends self) ->
  NoDup (list_available_domains self) ->
  NoDup (list_available_backends (register self c))
  /\ NoDup (list_available_domains (register self c)).
Proof.
  intros Hb Hd. destruct c; simpl;
    unfold list_available_backends, list_available_domains; simpl.
  - split; [by apply keys_set_NoDup|done].
  - split; [done|by apply keys_set_NoDup].
Qed.

Lemma listed_iff self name :
  name ∈ list_available_backends self
  <-> get_quantum_backend self name <> None.
Proof.
  unfold list_available_backends, get_quantum_backend.
  pose proof (get_None name (quantum_backends self)) as Hnone.
  destruct (decide (name ∈ PyDict.keys (quantum_backends self)));
    split; try done.
  - intros _ Hget. by apply Hnone in Hget.
  - intros Hget. destruct Hget. by apply Hnone.
Qed.

(** The adapter a registration gives to [name], if it is one for [name]. *)
Lemma register_lookup self c name :
  get_quantum_backend (register self c) name =
    match c with
    | RegisterBackend n a =>
        if decide (n = name) then Some a else get_quantum_backend self name
    | RegisterDomain _ _ _ => get_quantum_backend self name
    end.
Proof.
  destruct c as [n a|d t f]; [|done].
  unfold get_quantum_backend; simpl. case_decide.
  - subst. apply get_set_eq.
  - by apply get_set_ne.
Qed.

(** X4. After any sequence of registrations on a new registry, no backend
    and no domain is listed twice, a backend is listed exactly when some
    registration named it, and [get_quantum_backend] returns the adapter of
    the last registration for the name. *)
Theorem registrations_from_init cs name :
  let self := fold_left register cs init in
  NoDup (list_available_backends self)
  /\ NoDup (list_available_domains self)
  /\ (name ∈ list_available_backends self
      <-> exists a, RegisterBackend name a ∈ cs)
  /\ get_quantum_backend self name =
       last (omap (fun c =>
                     match c with
                     | RegisterBackend n a =>
                         if decide (n = name) then Some a else None
                     | RegisterDomain _ _ _ => None
                     end) cs).
Proof.
  induction cs as [|c cs IH] using rev_ind; simpl.
  - split; [apply NoDup_nil_2|]. split; [apply NoDup_nil_2|].
    split; [|done]. split.
    + intros Hin. by apply elem_of_nil in Hin.
    + intros [a Hin]. by apply elem_of_nil in Hin.
  - rewrite fold_left_app; simpl.
    destruct IH as (Hb & Hd & Hin & Hget).
    destruct (register_NoDup _ c Hb Hd) as [Hb' Hd'].
    split; [exact Hb'|]. split; [exact Hd'|].
    assert (Hget' : get_quantum_backend (register (fold_left register cs init) c)
                      name
                    = last (omap (fun c =>
                         match c with
                         | RegisterBackend n a =>
                             if decide (n = name) then Some a else None
                         | RegisterDomain _ _ _ => None
                         end) (cs ++ [c]))).
    { rewrite register_lookup, omap_app. destruct c as [n a|d t f]; simpl.
      - case_decide; simpl; [by rewrite last_snoc|].
        by rewrite app_nil_r.
      - by rewrite app_nil_r. }
    split; [|exact Hget'].
    rewrite listed_iff in Hin |- *.
    rewrite register_lookup. split.
    + destruct c as [n a|d t f].
      * case_decide as Hn.
        -- subst. intros _. exists a. apply elem_of_app. right. constructor.
        -- intros Hs. apply Hin in Hs as [a' Ha']. exists a'.
           apply elem_of_app. by left.
      * intros Hs. apply Hin in Hs as [a' Ha']. exists a'.
        apply elem_of_app. by left.
    + intros [a' Ha']. apply elem_of_app in Ha' as [Ha'|Ha'].
      * assert (Hs : get_quantum_backend (fold_left register cs init) name
                     <> None) by (apply Hin; eauto).
        destruct c as [n a|d t f]; [case_decide|]; done.
      * apply list_elem_of_singleton in Ha'. subst c.
        by rewrite decide_True.
Qed.

End Registry.

End PluginFacts.

(** ** Data governance: the audit log and the metadata store *)

Module GovernanceMore.

Import Governance GovernanceCalls Scenario.

(** X5. Every access check writes exactly one entry at the end of the
    audit log, stamped with the clock reading and the user; its event type
    is "GRANTED" when the check returns [True] and "DENIED" when it returns
    [False].  The metadata store is not touched. *)
Theorem check_access_audited
    (now : string) (self : DataGovernanceManager)
    (user role action : string) :
  metadata_store (check_access now self user role action).2
    = metadata_store self
  /\ exists details,
       audit_log (check_access now self user role action).2 =
         audit_log self ++
           [{| timestamp := now;
               event_type :=
                 if (check_access now self user role action).1
                 then "GRANTED" else "DENIED";
               user := user;
               details := details |}].
Proof.
  unfold check_access. destruct (ROLES !! role) as [allowed|]; simpl.
  - destruct (bool_decide (action ∈ allowed)); simpl; eauto.
  - eauto.
Qed.

(** X6. Creating dataset metadata stores the returned record under the
    dataset id, replacing without a check whatever record was there: the
    stored record has quality score 0.0 and no quality metrics, even if
    quality had been recorded for that id.  Records under other ids are
    kept, and one "CREATE" entry for the owner is added to the audit
    log. *)
Theorem create_dataset_metadata_stored
    (created now : string) (self : DataGovernanceManager)
    (id owner purp class : string) :
  let md := (create_dataset_metadata created now self id owner purp class).1 in
  let self' :=
    (create_dataset_metadata created now self id owner purp class).2 in
  metadata_store self' !! id = Some md
  /\ (forall other, other <> id ->
        metadata_store self' !! other = metadata_store self !! other)
  /\ dataset_id md = id /\ data_owner md = owner /\ purpose md = purp
  /\ classification md = class /\ created_timestamp md = created
  /\ quality_score md = 0%float
  /\ quality_metrics md = None
  /\ audit_log self' =
       audit_log self ++
         [{| timestamp := now; event_type := "CREATE"; user := owner;
             details := "Created dataset " +:+ id |}].
Proof.
  simpl. split; [apply lookup_insert_eq|].
  split; [intros other Hne; by apply lookup_insert_ne|].
  repeat split.
Qed.

(** X7. Recording quality for a dataset that has a record stores the
    given metrics in that record and keeps all its other fields; for fewer
    than eight metrics the stored quality score is their sum, taken in the
    dict's order, over their number.  The records of other datasets and
    the audit log are unchanged (recording quality is never audited). *)
Theorem record_data_quality_present
    (self : DataGovernanceManager) (id : string)
    (quality : list (string * float)) (md : Metadata) :
  metadata_store self !! id = Some md ->
  (exists md',
      metadata_store (record_data_quality self id quality) !! id = Some md'
      /\ quality_metrics md' = Some quality
      /\ ((length quality < 8)%nat ->
          quality_score md' =
            PrimFloat.div (fold_left PrimFloat.add (map snd quality) 0%float)
              (float_of_nat (length quality)))
      /\ dataset_id md' = dataset_id md
      /\ created_timestamp md' = created_timestamp md
      /\ data_owner md' = data_owner md
      /\ purpose md' = purpose md
      /\ classification md' = classification md
      /\ data_type md' = data_type md
      /\ provenance md' = provenance md
      /\ policies md' = policies md)
  /\ (forall other, other <> id ->
        metadata_store (record_data_quality self id quality) !! other
          = metadata_store self !! other)
  /\ audit_log (record_data_quality self id quality) = audit_log self.
Proof.
  intros Hmd. unfold record_data_quality. rewrite Hmd. simpl.
  split; [|split; [intros other Hne; by apply lookup_insert_ne|done]].
  eexists. split; [apply lookup_insert_eq|]. simpl.
  split; [reflexivity|].
  split; [intros _; unfold np_mean; by rewrite length_map|].
  repeat split.
Qed.

Lemma record_data_quality_present_witness :
  exists md',
    metadata_store
      (record_data_quality demo_manager "drug_discovery_001"
         [("consistency", 0.75%float); ("accuracy", 0.5%float)])
      !! "drug_discovery_001" = Some md'
    /\ quality_metrics md'
       = Some [("consistency", 0.75%float); ("accuracy", 0.5%float)]
    /\ quality_score md' = 0.625%float
    /\ classification md' = "confidential".
Proof.
  eassert (Hmd : metadata_store demo_manager !! "drug_discovery_001" = Some _)
    by (vm_compute; reflexivity).
  destruct (record_data_quality_present demo_manager "drug_discovery_001"
              [("consistency", 0.75%float); ("accuracy", 0.5%float)] _ Hmd)
    as ((md' & Hlook & Hq & Hs & _ & _ & _ & _ & Hc & _) & _).
  exists md'. split; [exact Hlook|]. split; [exact Hq|].
  split; [rewrite (Hs ltac:(simpl; lia)); reflexivity
         |rewrite Hc; reflexivity].
Defined.

(** X8. Recording an empty dict of metrics for a dataset that has a record
    makes its quality score NaN: the mean of no values. *)
Theorem record_data_quality_empty_is_nan
    (self : DataGovernanceManager) (id : string) (md : Metadata) :
  metadata_store self !! id = Some md ->
  exists md',
    metadata_store (record_data_quality self id []) !! id = Some md'
    /\ PrimFloat.is_nan (quality_score md') = true
    /\ quality_metrics md' = Some [].
Proof.
  intros Hmd. unfold record_data_quality. rewrite Hmd. simpl.
  eexists. split; [apply lookup_insert_eq|]. split; reflexivity.
Qed.

Lemma record_data_quality_empty_is_nan_witness :
  exists md',
    metadata_store (record_data_quality demo_manager "drug_discovery_001" [])
      !! "drug_discovery_001" = Some md'
    /\ PrimFloat.is_nan (quality_score md') = true
    /\ quality_metrics md' = Some [].
Proof.
  eassert (Hmd : metadata_store demo_manager !! "drug_discovery_001" = Some _)
    by (vm_compute; reflexivity).
  exact (record_data_quality_empty_is_nan demo_manager "drug_discovery_001"
           _ Hmd).
Defined.

Lemma perform_audit_log self c :
  exists added,
    audit_log (perform self c) = audit_log self ++ added
    /\ length added = (if audited c then 1 else 0)%nat
    /\ Forall (fun e => event_type e ∈ ["CREATE"; "GRANTED"; "DENIED"]) added.
Proof.
  destruct c as [created now id owner purp class|now user role action|id q];
    simpl.
  - eexists. split; [reflexivity|]. split; [done|].
    repeat constructor.
  - destruct (check_access_audited now self user role action)
      as (_ & details & ->).
    eexists. split; [reflexivity|]. split; [done|].
    constructor; [|constructor]. simpl.
    destruct (check_access now self user role action).1; repeat constructor.
  - exists []. rewrite app_nil_r. split; [|split; [done|constructor]].
    unfold record_data_quality. by destruct (metadata_store self !! id).
Qed.

(** X9. Over any sequence of calls the audit log only grows at its end:
    the entries that were there stay, in place; one entry is added per
    dataset creation and per access check, none per quality recording; and
    every added entry is a "CREATE", "GRANTED" or "DENIED" event. *)
Theorem audit_log_append_only (cs : list call) :
  forall self : DataGovernanceManager,
  exists added,
    audit_log (perform_all self cs) = audit_log self ++ added
    /\ length added = length (List.filter audited cs)
    /\ Forall (fun e => event_type e ∈ ["CREATE"; "GRANTED"; "DENIED"]) added.
Proof.
  unfold perform_all.
  induction cs as [|c cs IH]; intros self; simpl.
  - exists []. rewrite app_nil_r. repeat split. constructor.
  - destruct (perform_audit_log self c) as (a1 & Hlog1 & Hlen1 & Hev1).
    destruct (IH (perform self c)) as (a2 & Hlog2 & Hlen2 & Hev2).
    exists (a1 ++ a2). rewrite Hlog2, Hlog1, <- app_assoc.
    split; [done|]. split; [|by apply Forall_app].
    rewrite length_app, Hlen1, Hlen2. by destruct (audited c).
Qed.

Lemma perform_store self c id :
  (forall k md, metadata_store self !! k = Some md -> dataset_id md = k) ->
  (is_Some (metadata_store (perform self c) !! id)
   <-> is_Some (metadata_store self !! id) \/ created_id c = Some id)
  /\ (forall k md,
        metadata_store (perform self c) !! k = Some md -> dataset_id md = k).
Proof.
  intros Hinv.
  destruct c as [created now k0 owner purp class|now user role action|k0 q];
    simpl.
  - split.
    + destruct (decide (k0 = id)) as [->|Hne].
      * rewrite lookup_insert_eq. split; [by right|eauto].
      * rewrite lookup_insert_ne by done. split; [by left|].
        intros [?|[= ?]]; done.
    + intros k md. destruct (decide (k0 = k)) as [->|Hne].
      * rewrite lookup_insert_eq. by intros [= <-].
      * rewrite lookup_insert_ne by done. apply Hinv.
  - destruct (check_access_audited now self user role action) as [-> _].
    split; [|exact Hinv]. split; [by left|]. by intros [?|?].
  - unfold record_data_quality.
    destruct (metadata_store self !! k0) as [md0|] eqn:Hk0; simpl.
    + split.
      * destruct (decide (k0 = id)) as [->|Hne].
        -- rewrite lookup_insert_eq, Hk0. split; [by left|eauto].
        -- rewrite lookup_insert_ne by done. split; [by left|].
           by intros [?|?].
      * intros k md. destruct (decide (k0 = k)) as [->|Hne].
        -- rewrite lookup_insert_eq. intros [= <-]. simpl. by apply Hinv.
        -- rewrite lookup_insert_ne by done. apply Hinv.
    + split; [|exact Hinv]. split; [by left|]. by intros [?|?].
Qed.

(** X10. On a manager built from a new one by any sequence of calls, a
    dataset id has a record exactly when some call created it (records are
    never removed, and recording quality never creates one), and every
    record is stored under its own [dataset_id]. *)
Theorem metadata_store_from_init (cs : list call) (id : string) :
  (is_Some (metadata_store (perform_all init cs) !! id)
   <-> Some id ∈ map created_id cs)
  /\ (forall md,
        metadata_store (perform_all init cs) !! id = Some md ->
        dataset_id md = id).
Proof.
  unfold perform_all.
  assert (Hgen : forall self,
    (forall k md, metadata_store self !! k = Some md -> dataset_id md = k) ->
    (is_Some (metadata_store (fold_left perform cs self) !! id)
     <-> is_Some (metadata_store self !! id) \/ Some id ∈ map created_id cs)
    /\ (forall k md,
          metadata_store (fold_left perform cs self) !! k = Some md ->
          dataset_id md = k)).
  { induction cs as [|c cs IH]; intros self Hinv; simpl.
    - split; [|exact Hinv]. split; [by left|].
      intros [?|Hin]; [done|]. by apply elem_of_nil in Hin.
    - destruct (perform_store self c id Hinv) as [Hdom Hinv'].
      destruct (IH (perform self c) Hinv') as [Hdom' Hinv''].
      split; [|exact Hinv'']. rewrite Hdom', Hdom, elem_of_cons.
      split.
      + intros [[?|Hc]|?]; [by left|right; left; by rewrite Hc|by right; right].
      + intros [?|[Hc|?]]; [by left; left|left; right; by rewrite <- Hc|by right].
  }
  destruct (Hgen init) as [Hdom Hinv].
  { intros k md. simpl. by rewrite lookup_empty. }
  split; [|apply Hinv].
  rewrite Hdom. simpl. rewrite lookup_empty. split.
  - intros [[? ?]|?]; done.
  - by right.
Qed.

End GovernanceMore.

(** ** The orchestrator: where the numbers of a run come from *)

Module RunFacts.

Import Numpy Scipy Orchestrator Scenario Transcript.
Import NumpyFacts OrchestratorFacts WorkflowFacts.

Lemma random_vector_samples n : forall rs,
  random_vector n rs =
    (map (samples rs) (seq (cursor rs) n),
     {| samples := samples rs; cursor := (cursor rs + n)%nat |}).
Proof.
  induction n as [|n IH]; intros rs; simpl.
  - destruct rs; simpl. by rewrite Nat.add_0_r.
  - rewrite IH. simpl. do 2 f_equal. lia.
Qed.

Lemma random_rows_samples r c : forall rs,
  samples (random_rows r c rs).2 = samples rs.
Proof.
  induction r as [|r IH]; intros rs; simpl; [done|].
  rewrite random_vector_samples.
  specialize (IH {| samples := samples rs; cursor := (cursor rs + c)%nat |}).
  destruct (random_rows r c _) as [rows rs2]. exact IH.
Qed.

Section Bridge.

Variables (hamiltonian : list (list float)) (ansatz : Ansatz).

(** The history of a run, record by record: the point the optimizer asked
    for, and the next number of the generator less 0.5. *)
Lemma run_optimizer_trace o : forall pre hist post w,
  lists w = pre ++ hist :: post ->
  exists out w' new,
    run_optimizer (cost_function hamiltonian ansatz (length pre)) o w
      = (out, w')
    /\ lists w' = pre ++ (hist ++ new) :: post
    /\ asked o (map params new) (map energy new) out
    /\ map energy new =
         map (fun i => PrimFloat.sub
                         (samples (rng w) (cursor (rng w) + i)) 0.5%float)
           (seq 0 (length new))
    /\ rng w' = {| samples := samples (rng w);
                   cursor := (cursor (rng w) + length new)%nat |}.
Proof.
  induction o as [point k IH|res|e]; intros pre hist post w Hw.
  - destruct (cost_function_appends hamiltonian ansatz pre hist post point w
                Hw) as (value & w1 & Hcost & Hw1 & _).
    assert (Hval : value
                   = PrimFloat.sub (samples (rng w) (cursor (rng w))) 0.5%float
                   /\ rng w1 = {| samples := samples (rng w);
                                  cursor := S (cursor (rng w)) |}).
    { unfold cost_function, _quantum_evaluate, random in Hcost.
      injection Hcost as <- <-. by split. }
    destruct Hval as [Hval Hrng1].
    destruct (IH value pre _ post w1 Hw1)
      as (out & w' & new & Hrun & Hw' & Hask & Hen & Hrng).
    exists out, w',
      ({| iteration := length hist; params := point; energy := value |}
         :: new).
    cbn [run_optimizer]. rewrite Hcost. split; [exact Hrun|]. split.
    { rewrite Hw'. by rewrite <- app_assoc. }
    split; [by constructor|]. split.
    + cbn [map length seq energy]. rewrite Nat.add_0_r, <- Hval. f_equal.
      rewrite Hen, Hrng1. cbn [samples cursor].
      rewrite <- seq_shift, map_map. apply map_ext. intros i.
      by replace (S (cursor (rng w)) + i)%nat
        with (cursor (rng w) + S i)%nat by lia.
    + rewrite Hrng, Hrng1. cbn [samples cursor length]. f_equal. lia.
  - exists (ok res), w, []. simpl. rewrite app_nil_r, Nat.add_0_r.
    split; [done|]. split; [done|]. split; [constructor|]. split; [done|].
    by destruct w as [[? ?] ?].
  - exists (raise e), w, []. simpl. rewrite app_nil_r, Nat.add_0_r.
    split; [done|]. split; [done|]. split; [constructor|]. split; [done|].
    by destruct w as [[? ?] ?].
Qed.

End Bridge.

(** The cost function does not look at the operator or the ansatz. *)
Lemma run_optimizer_ignores_operator h1 a1 h2 a2 l o : forall w,
  run_optimizer (cost_function h1 a1 l) o w
  = run_optimizer (cost_function h2 a2 l) o w.
Proof.
  induction o as [point k IH|res|e]; intros w; [|done|done].
  cbn [run_optimizer].
  change (cost_function h2 a2 l point w) with (cost_function h1 a1 l point w).
  destruct (cost_function h1 a1 l point w) as [value w1]. apply IH.
Qed.

Lemma random_rows_state r c rs :
  (random_rows r c rs).2 =
    {| samples := samples rs; cursor := (cursor rs + r * c)%nat |}.
Proof.
  pose proof (random_rows_samples r c rs) as Hs.
  pose proof (random_rows_cursor r c rs) as Hc.
  destruct (random_rows r c rs).2 as [s c']. simpl in *. by subst.
Qed.

Section Execution.

Variable minimize : list float -> Z -> Optimizer.

(** A run whose counts are not negative, number by number. *)
Lemma execute_trace self cfg max_iterations w n p :
  default 2 (ProblemConfig.n_qubits cfg) = n ->
  0 <= n ->
  default 4 (ProblemConfig.num_parameters cfg) = p ->
  0 <= p ->
  let c := cursor (rng w) in
  let d := Z.to_nat (2 ^ n) in
  let init_params :=
    map (samples (rng w)) (seq (c + d * d) (Z.to_nat p)) in
  exists hist out w',
    asked (minimize init_params max_iterations)
      (map params hist) (map energy hist) out
    /\ execute_vqe_workflow minimize self cfg max_iterations w =
         (match out with
          | inl e => inl e
          | inr res =>
              let r :=
                {| WorkflowResult.backend := backend_type self;
                   WorkflowResult.problem := cfg;
                   WorkflowResult.optimal_params := x res;
                   WorkflowResult.minimum_energy := fun_ res;
                   WorkflowResult.iterations := length (lists w);
                   WorkflowResult.success := success res |} in
              inr (r, {| backend_type := backend_type self;
                         execution_history :=
                           execution_history self ++ [r] |})
          end, w')
    /\ lists w' = lists w ++ [hist]
    /\ map energy hist =
         map (fun i =>
                PrimFloat.sub
                  (samples (rng w) (c + d * d + Z.to_nat p + i)) 0.5%float)
           (seq 0 (length hist))
    /\ rng w' =
         {| samples := samples (rng w);
            cursor := (c + d * d + Z.to_nat p + length hist)%nat |}.
Proof.
  intros Hcfg Hn Hpar Hp c d init_params.
  unfold execute_vqe_workflow, bind.
  rewrite (_construct_hamiltonian_ok cfg n w Hcfg Hn).
  fold d. pose proof (random_rows_state d d (rng w)) as Hst.
  destruct (random_rows d d (rng w)) as [hamiltonian rs1]; simpl in Hst.
  unfold with_rng at 1, random_1d. rewrite Hpar. cbn [rng lists fst snd].
  destruct (Z.ltb_spec p 0); [lia|].
  rewrite random_vector_samples. subst rs1. cbn [samples cursor].
  fold c. fold init_params.
  unfold new_list; cbn [rng lists].
  destruct (run_optimizer_trace hamiltonian (_construct_ansatz cfg)
              (minimize init_params max_iterations)
              (lists w) [] []
              {| rng := {| samples := samples (rng w);
                           cursor := (c + d * d + Z.to_nat p)%nat |};
                 lists := lists w ++ [[]] |} eq_refl)
    as (out & w' & hist & Hrun & Hw' & Hask & Hen & Hrng).
  exists hist, out, w'. unfold ok, ret. cbv beta iota. rewrite Hrun.
  split; [exact Hask|]. split; [by destruct out|].
  split; [exact Hw'|]. split; [exact Hen|exact Hrng].
Qed.

(** The same for a run that has completed. *)
Lemma execute_completed_trace self cfg max_iterations w r self' w' :
  execute_vqe_workflow minimize self cfg max_iterations w
    = (ok (r, self'), w') ->
  let c := cursor (rng w) in
  let d := Z.to_nat (2 ^ default 2 (ProblemConfig.n_qubits cfg)) in
  let p := Z.to_nat (default 4 (ProblemConfig.num_parameters cfg)) in
  let init_params := map (samples (rng w)) (seq (c + d * d) p) in
  exists hist res,
    lists w' !! WorkflowResult.iterations r = Some hist
    /\ asked (minimize init_params max_iterations)
         (map params hist) (map energy hist) (ok res)
    /\ WorkflowResult.optimal_params r = x res
    /\ WorkflowResult.minimum_energy r = fun_ res
    /\ WorkflowResult.success r = success res
    /\ map energy hist =
         map (fun i =>
                PrimFloat.sub (samples (rng w) (c + d * d + p + i)) 0.5%float)
           (seq 0 (length hist))
    /\ rng w' = {| samples := samples (rng w);
                   cursor := (c + d * d + p + length hist)%nat |}.
Proof.
  intros Hexec c d p init_params.
  destruct (Z.lt_ge_cases (default 2 (ProblemConfig.n_qubits cfg)) 0)
    as [Hn|Hn].
  { rewrite execute_negative_qubits in Hexec by exact Hn. discriminate. }
  destruct (Z.lt_ge_cases (default 4 (ProblemConfig.num_parameters cfg)) 0)
    as [Hp|Hp].
  { destruct (execute_negative_parameters minimize self cfg max_iterations w _
                eq_refl Hn Hp) as (w1 & Heq & _).
    rewrite Heq in Hexec. discriminate. }
  destruct (execute_trace self cfg max_iterations w _ _ eq_refl Hn eq_refl Hp)
    as (hist & out & w1 & Hask & Heq & Hw1 & Hen & Hrng).
  rewrite Heq in Hexec. destruct out as [e|res]; [discriminate|].
  unfold ok in Hexec. injection Hexec as Hr Hself Hw. subst w1 r.
  exists hist, res. cbn [WorkflowResult.iterations
    WorkflowResult.optimal_params WorkflowResult.minimum_energy
    WorkflowResult.success].
  rewrite Hw1. split; [apply lookup_new_list|]. by repeat split.
Qed.

End Execution.

End RunFacts.

Module RunProperties.

Import Numpy Scipy Orchestrator Scenario Transcript.
Import NumpyFacts OrchestratorFacts WorkflowFacts RunFacts.

(** X11. The history of a completed execution is the transcript of the
    optimizer's run: started on the initial point (the [num_parameters]
    numbers the generator gives after the operator's), the optimizer asked,
    one after the other, for exactly the points recorded as [params], was
    answered exactly the values recorded as [energy] and returned the point
    that the result carries as [optimal_params]. *)
Theorem history_is_optimizer_transcript
    (minimize : list float -> Z -> Optimizer)
    (self : HybridQuantumOrchestrator) (cfg : ProblemConfig.t)
    (max_iterations : Z) (w : World)
    (r : WorkflowResult.t) (self' : HybridQuantumOrchestrator) (w' : World) :
  execute_vqe_workflow minimize self cfg max_iterations w
    = (ok (r, self'), w') ->
  let d := Z.to_nat (2 ^ default 2 (ProblemConfig.n_qubits cfg)) in
  let p := Z.to_nat (default 4 (ProblemConfig.num_parameters cfg)) in
  let init_params :=
    map (samples (rng w)) (seq (cursor (rng w) + d * d) p) in
  length init_params = p
  /\ exists hist res,
       lists w' !! WorkflowResult.iterations r = Some hist
       /\ asked (minimize init_params max_iterations)
            (map params hist) (map energy hist) (ok res)
       /\ WorkflowResult.optimal_params r = x res
       /\ WorkflowResult.minimum_energy r = fun_ res.
Proof.
  intros Hexec d p init_params.
  split; [unfold init_params; by rewrite length_map, length_seq|].
  destruct (execute_completed_trace minimize self cfg max_iterations w
              r self' w' Hexec)
    as (hist & res & Hlook & Hask & Hx & Hf & _).
  exists hist, res. by repeat split.
Qed.

Lemma history_is_optimizer_transcript_witness :
  exists r self' w' hist res,
    execute_vqe_workflow greedy_minimize orchestrator0 demo_config 2 world0
      = (ok (r, self'), w')
    /\ lists w' !! WorkflowResult.iterations r = Some hist
    /\ asked (greedy_minimize [0%float; 0.25%float; 0.5%float; 0.75%float] 2)
         (map params hist) (map energy hist) (ok res)
    /\ WorkflowResult.optimal_params r = x res.
Proof.
  eassert (Hrun : execute_vqe_workflow greedy_minimize orchestrator0
                    demo_config 2 world0 = (ok (_, _), _))
    by (lazy; reflexivity).
  eexists _, _, _.
  destruct (history_is_optimizer_transcript _ _ _ _ _ _ _ _ Hrun)
    as (_ & hist & res & Hlook & Hask & Hx & _).
  exists hist, res. split; [exact Hrun|]. split; [exact Hlook|].
  split; [exact Hask|exact Hx].
Defined.

(** X12. The energies of an execution come from the random generator
    alone: the i-th recorded energy is the generator's next number less
    0.5, whatever point the optimizer proposed and whatever the operator
    and the ansatz are.  A completed execution consumes exactly 4^n_qubits
    numbers for the operator, [num_parameters] for the initial point and
    one per evaluation, in this order. *)
Theorem energies_from_generator
    (minimize : list float -> Z -> Optimizer)
    (self : HybridQuantumOrchestrator) (cfg : ProblemConfig.t)
    (max_iterations : Z) (w : World)
    (r : WorkflowResult.t) (self' : HybridQuantumOrchestrator) (w' : World) :
  execute_vqe_workflow minimize self cfg max_iterations w
    = (ok (r, self'), w') ->
  let d := Z.to_nat (2 ^ default 2 (ProblemConfig.n_qubits cfg)) in
  let p := Z.to_nat (default 4 (ProblemConfig.num_parameters cfg)) in
  let first := (cursor (rng w) + d * d + p)%nat in
  exists hist,
    lists w' !! WorkflowResult.iterations r = Some hist
    /\ map energy hist =
         map (fun i => PrimFloat.sub (samples (rng w) (first + i)) 0.5%float)
           (seq 0 (length hist))
    /\ samples (rng w') = samples (rng w)
    /\ cursor (rng w') = (first + length hist)%nat.
Proof.
  intros Hexec d p first.
  destruct (execute_completed_trace minimize self cfg max_iterations w
              r self' w' Hexec)
    as (hist & res & Hlook & _ & _ & _ & _ & Hen & Hrng).
  exists hist. split; [exact Hlook|]. split; [exact Hen|].
  by rewrite Hrng.
Qed.

Lemma energies_from_generator_witness :
  exists r self' w' hist,
    execute_vqe_workflow greedy_minimize orchestrator0 demo_config 2 world0
      = (ok (r, self'), w')
    /\ lists w' !! WorkflowResult.iterations r = Some hist
    /\ map energy hist =
         map (fun i => PrimFloat.sub (samples cycle4 (20 + i)) 0.5%float)
           (seq 0 (length hist))
    /\ cursor (rng w') = (20 + length hist)%nat.
Proof.
  eassert (Hrun : execute_vqe_workflow greedy_minimize orchestrator0
                    demo_config 2 world0 = (ok (_, _), _))
    by (lazy; reflexivity).
  eexists _, _, _.
  destruct (energies_from_generator _ _ _ _ _ _ _ _ Hrun)
    as (hist & Hlook & Hen & _ & Hcur).
  exists hist. split; [exact Hrun|]. split; [exact Hlook|].
  split; [exact Hen|exact Hcur].
Defined.

(** X13. The backend is never consulted and the ansatz is never used: two
    executions from the same world whose problems agree on the qubit and
    parameter counts end in the same world (same histories, same generator
    state) and, if they complete, with the same optimal parameters, minimum
    energy, history and success flag, whatever the orchestrators' backend
    types and the problems' "backend" and "ansatz_reps" entries are. *)
Theorem backend_and_ansatz_ignored
    (minimize : list float -> Z -> Optimizer)
    (self1 self2 : HybridQuantumOrchestrator) (cfg1 cfg2 : ProblemConfig.t)
    (max_iterations : Z) (w : World) :
  default 2 (ProblemConfig.n_qubits cfg1)
    = default 2 (ProblemConfig.n_qubits cfg2) ->
  default 4 (ProblemConfig.num_parameters cfg1)
    = default 4 (ProblemConfig.num_parameters cfg2) ->
  (execute_vqe_workflow minimize self1 cfg1 max_iterations w).2
  = (execute_vqe_workflow minimize self2 cfg2 max_iterations w).2
  /\ match (execute_vqe_workflow minimize self1 cfg1 max_iterations w).1,
           (execute_vqe_workflow minimize self2 cfg2 max_iterations w).1 with
     | inr (r1, _), inr (r2, _) =>
         WorkflowResult.optimal_params r1 = WorkflowResult.optimal_params r2
         /\ WorkflowResult.minimum_energy r1 = WorkflowResult.minimum_energy r2
         /\ WorkflowResult.iterations r1 = WorkflowResult.iterations r2
         /\ WorkflowResult.success r1 = WorkflowResult.success r2
     | inl e1, inl e2 => e1 = e2
     | _, _ => False
     end.
Proof.
  intros Hn Hp.
  assert (Hop : _construct_hamiltonian cfg1 = _construct_hamiltonian cfg2)
    by (unfold _construct_hamiltonian; by rewrite Hn).
  unfold execute_vqe_workflow, bind. rewrite Hop, Hp.
  destruct (_construct_hamiltonian cfg2 w) as [[e|hamiltonian] w1]; [done|].
  destruct (with_rng (random_1d _) w1) as [[e|init_params] w2]; [done|].
  destruct (new_list w2) as [[e|l] w3]; [done|].
  rewrite (run_optimizer_ignores_operator hamiltonian (_construct_ansatz cfg1)
             hamiltonian (_construct_ansatz cfg2)).
  destruct (run_optimizer _ _ w3) as [[e|res] w4]; simpl; done.
Qed.

Lemma backend_and_ansatz_ignored_witness :
  (execute_vqe_workflow greedy_minimize (Orchestrator.init "ionq")
     (with_ansatz_reps 7 demo_config) 2 world0).2
  = (execute_vqe_workflow greedy_minimize orchestrator0 demo_config 2
       world0).2.
Proof.
  pose proof (backend_and_ansatz_ignored greedy_minimize
                (Orchestrator.init "ionq") orchestrator0
                (with_ansatz_reps 7 demo_config) demo_config 2 world0
                eq_refl eq_refl) as [Hworld _].
  exact Hworld.
Defined.

End RunProperties.

(** ** Python arithmetic *)

Module PyNumFacts.

Import PyNum.

Lemma round_to_float_error m e err :
  round_to_float m e = inl err -> err = OverflowError.
Proof.
  unfold round_to_float.
  destruct (SpecFloat.binary_normalize _ _ _ _ _); by intros [= <-].
Qed.

Lemma as_float_error a err : as_float a = inl err -> err = OverflowError.
Proof. destruct a; simpl; [apply round_to_float_error|done]. Qed.

Lemma sub_error a b err : sub a b = inl err -> err = OverflowError.
Proof.
  destruct a as [x|x], b as [y|y]; simpl; try done;
    unfold abind;
    repeat match goal with
           | |- context [float_of_int ?z] =>
               let H := fresh in
               destruct (float_of_int z) eqn:H;
               [apply round_to_float_error in H; subst|]
           end; by intros [= <-].
Qed.

Lemma mul_error a b err : mul a b = inl err -> err = OverflowError.
Proof.
  destruct a as [x|x], b as [y|y]; simpl; try done;
    unfold abind;
    repeat match goal with
           | |- context [float_of_int ?z] =>
               let H := fresh in
               destruct (float_of_int z) eqn:H;
               [apply round_to_float_error in H; subst|]
           end; by intros [= <-].
Qed.

(** True division always gives a float. *)
Lemma truediv_Float a b v : truediv a b = inr v -> exists f, v = Float f.
Proof.
  destruct a as [x|x], b as [y|y]; simpl; unfold abind.
  - destruct (int_truediv x y); [done|]. intros [= <-]. eauto.
  - destruct (float_of_int x); [done|].
    destruct (PrimFloat.eqb y 0); [done|]. intros [= <-]. eauto.
  - destruct (float_of_int y) as [|g]; [done|].
    destruct (PrimFloat.eqb g 0); [done|]. intros [= <-]. eauto.
  - destruct (PrimFloat.eqb y 0); [done|]. intros [= <-]. eauto.
Qed.

(** Dividing by zero, int or float, raises. *)
Lemma truediv_by_zero a b :
  is_zero b = true -> exists e, truediv a b = inl e.
Proof.
  destruct a as [x|x], b as [y|y]; simpl; unfold abind; intros Hz.
  - apply Z.eqb_eq in Hz as ->. unfold int_truediv. simpl. eauto.
  - destruct (float_of_int x); [eauto|]. rewrite Hz. eauto.
  - apply Z.eqb_eq in Hz as ->. vm_compute. eauto.
  - rewrite Hz. eauto.
Qed.

Lemma truediv_Float_by_zero x b :
  is_zero b = true -> truediv (Float x) b = inl ZeroDivisionError.
Proof.
  destruct b as [y|y]; simpl; unfold abind; intros Hz.
  - apply Z.eqb_eq in Hz as ->. reflexivity.
  - by rewrite Hz.
Qed.

Lemma mul_Float_100 f :
  mul (Float f) (Int 100) = inr (Float (PrimFloat.mul f 100%float)).
Proof. reflexivity. Qed.

End PyNumFacts.

(** ** Value measurement: benchmarks *)

Module BenchmarkFacts.

Import PyNum ValueMeasurement PyNumFacts PyDictFacts.

(** What a benchmark that returns has computed. *)
Lemma benchmark_inv now self hqc classical dom b self' :
  benchmark_hqc_vs_classical now self hqc classical dom = inr (b, self') ->
  exists v1 saved ratio v2 v3 v4,
    truediv (default (Int 1) (classical !! "execution_time"))
            (default (Float f0_1) (hqc !! "execution_time")) = inr v1
    /\ sub (default (Int 1) (classical !! "cost"))
           (default (Float 0.5) (hqc !! "cost")) = inr saved
    /\ truediv saved (default (Int 1) (classical !! "cost")) = inr ratio
    /\ mul ratio (Int 100) = inr v2
    /\ sub (default (Float f0_9) (hqc !! "solution_quality"))
           (default (Float f0_7) (classical !! "solution_quality")) = inr v3
    /\ truediv (default (Int 100) (hqc !! "iterations"))
               (default (Int 100) (classical !! "iterations")) = inr v4
    /\ b = {| timestamp := now;
              domain := dom;
              hqc_result := hqc;
              classical_result := classical;
              metrics :=
                let base :=
                  <["convergence_efficiency" := v4]>
                    (<["quality_improvement" := v3]>
                       (<["cost_reduction_pct" := v2]>
                          (<["speedup_factor" := v1]> ∅))) in
                match kpi_templates self !! dom with
                | Some template => apply_kpi_template template base
                | None => base
                end |}
    /\ self' = {| kpi_templates := kpi_templates self;
                  benchmarks := benchmarks self ++ [b] |}.
Proof.
  unfold benchmark_hqc_vs_classical, abind.
  destruct (truediv (default (Int 1) (classical !! "execution_time")) _)
    as [|v1] eqn:H1; [done|].
  destruct (sub (default (Int 1) (classical !! "cost")) _) as [|saved] eqn:H2;
    [done|].
  destruct (truediv saved _) as [|ratio] eqn:H3; [done|].
  destruct (mul ratio _) as [|v2] eqn:H4; [done|].
  destruct (sub (default (Float f0_9) (hqc !! "solution_quality")) _)
    as [|v3] eqn:H5; [done|].
  destruct (truediv (default (Int 100) (hqc !! "iterations")) _)
    as [|v4] eqn:H6; [done|].
  intros [= <- <-]. exists v1, saved, ratio, v2, v3, v4.
  repeat (split; [assumption || reflexivity|]). reflexivity.
Qed.

Lemma templates_lookup d :
  _load_kpi_templates !! d =
    if decide (d = "pharmaceutical") then
      Some [ ("cost_reduction_pct", Float 0);
             ("time_to_discovery_days", Int 0);
             ("problem_solvability", Float 0);
             ("accuracy_improvement", Float 0) ]
    else if decide (d = "financial") then
      Some [ ("portfolio_optimization_quality", Float 0);
             ("computation_speedup", Float 0);
             ("cost_per_optimization", Float 0);
             ("risk_assessment_accuracy", Float 0) ]
    else if decide (d = "materials_science") then
      Some [ ("crystal_structure_accuracy", Float 0);
             ("simulation_speedup", Float 0);
             ("discovery_rate", Float 0);
             ("energy_efficiency", Float 0) ]
    else None.
Proof.
  unfold _load_kpi_templates; simpl.
  repeat (case_decide; [subst; by simplify_map_eq|]).
  by simplify_map_eq.
Qed.

(** The engines a program can build have the templates of
    [_load_kpi_templates]. *)
Lemma reachable_templates self :
  reachable self -> kpi_templates self = _load_kpi_templates.
Proof.
  induction 1 as [|now self hqc classical dom b self' _ IH Hb]; [done|].
  apply benchmark_inv in Hb
    as (? & ? & ? & ? & ? & ? & _ & _ & _ & _ & _ & _ & _ & ->).
  exact IH.
Qed.

(** Looking a literal key up in a chain of insertions of literal keys. *)
Ltac lookup_chain :=
  repeat (rewrite lookup_insert_ne by discriminate);
  rewrite lookup_insert_eq; reflexivity.

Lemma is_Some_insert_iff (m : gmap string number) i j v :
  is_Some (<[i := v]> m !! j) <-> j = i \/ is_Some (m !! j).
Proof.
  destruct (decide (i = j)) as [->|Hne].
  - rewrite lookup_insert_eq. split; [by left|eauto].
  - rewrite lookup_insert_ne by done. split; [by right|].
    intros [->|?]; done.
Qed.

Lemma is_Some_empty_iff (j : string) :
  is_Some ((∅ : gmap string number) !! j) <-> False.
Proof. rewrite lookup_empty. split; [by intros [? ?]|done]. Qed.

Lemma apply_pharmaceutical m :
  apply_kpi_template
    [ ("cost_reduction_pct", Float 0); ("time_to_discovery_days", Int 0);
      ("problem_solvability", Float 0); ("accuracy_improvement", Float 0) ] m
  = <["accuracy_improvement" := Float 0]>
      (<["problem_solvability" := Float 0]>
         (<["time_to_discovery_days" := Int 0]>
            (<["cost_reduction_pct" := Float 0]> m))).
Proof. reflexivity. Qed.

Lemma apply_financial m :
  apply_kpi_template
    [ ("portfolio_optimization_quality", Float 0);
      ("computation_speedup", Float 0);
      ("cost_per_optimization", Float 0);
      ("risk_assessment_accuracy", Float 0) ] m
  = <["risk_assessment_accuracy" := Float 0]>
      (<["cost_per_optimization" := Float 0]>
         (<["computation_speedup" := Float 0]>
            (<["portfolio_optimization_quality" := Float 0]> m))).
Proof. reflexivity. Qed.

Lemma apply_materials_science m :
  apply_kpi_template
    [ ("crystal_structure_accuracy", Float 0);
      ("simulation_speedup", Float 0);
      ("discovery_rate", Float 0);
      ("energy_efficiency", Float 0) ] m
  = <["energy_efficiency" := Float 0]>
      (<["discovery_rate" := Float 0]>
         (<["simulation_speedup" := Float 0]>
            (<["crystal_structure_accuracy" := Float 0]> m))).
Proof. reflexivity. Qed.

End BenchmarkFacts.

Module BenchmarkProperties.

Import PyNum ValueMeasurement PyNumFacts PyDictFacts BenchmarkFacts.
Import BenchmarkScenario.

(** X14. A benchmark whose HQC execution time, classical cost or classical
    iteration count is zero (the int 0 or the float 0.0) raises instead of
    returning, so it records nothing. *)
Theorem benchmark_zero_divisor_raises
    (now : string) (self : ValueMeasurementEngine)
    (hqc classical : gmap string number) (dom : string) :
  is_zero (default (Float f0_1) (hqc !! "execution_time")) = true
  \/ is_zero (default (Int 1) (classical !! "cost")) = true
  \/ is_zero (default (Int 100) (classical !! "iterations")) = true ->
  exists e, benchmark_hqc_vs_classical now self hqc classical dom = inl e.
Proof.
  intros Hzero. unfold benchmark_hqc_vs_classical, abind.
  destruct (truediv (default (Int 1) (classical !! "execution_time")) _)
    as [e|v1] eqn:H1; [eauto|].
  destruct Hzero as [Hz|Hzero].
  { destruct (truediv_by_zero (default (Int 1) (classical !! "execution_time"))
                _ Hz) as [e He]. congruence. }
  destruct (sub (default (Int 1) (classical !! "cost")) _) as [e|saved];
    [eauto|].
  destruct (truediv saved _) as [e|ratio] eqn:H2; [eauto|].
  destruct Hzero as [Hz|Hz].
  { destruct (truediv_by_zero saved _ Hz) as [e He]. congruence. }
  destruct (mul ratio _) as [e|v2]; [eauto|].
  destruct (sub (default (Float f0_9) (hqc !! "solution_quality")) _)
    as [e|v3]; [eauto|].
  destruct (truediv (default (Int 100) (hqc !! "iterations")) _)
    as [e|v4] eqn:H4; [eauto|].
  destruct (truediv_by_zero (default (Int 100) (hqc !! "iterations")) _ Hz)
    as [e He]. congruence.
Qed.

Lemma benchmark_zero_divisor_raises_witness :
  benchmark_hqc_vs_classical "2025-11-01T09:00:00" init
    instant_hqc demo_classical "pharmaceutical" = inl ZeroDivisionError.
Proof.
  destruct (benchmark_zero_divisor_raises "2025-11-01T09:00:00" init
              instant_hqc demo_classical "pharmaceutical"
              (or_introl eq_refl)) as [e He].
  rewrite He. f_equal.
  assert (Hrun : benchmark_hqc_vs_classical "2025-11-01T09:00:00" init
                   instant_hqc demo_classical "pharmaceutical"
                 = inl ZeroDivisionError) by (vm_compute; reflexivity).
  congruence.
Defined.

(** X15. In the "pharmaceutical" domain, which is the default one, the
    reported "cost_reduction_pct" is always 0.0: the domain's KPI template
    has a key of that name and its value replaces the computed percentage.
    In every other domain the reported value is the computed one,
    [(classical cost - hqc cost) / classical cost * 100]. *)
Theorem cost_reduction_replaced_by_template
    (now : string) (self : ValueMeasurementEngine)
    (hqc classical : gmap string number) (dom : string)
    (b : Benchmark) (self' : ValueMeasurementEngine) :
  reachable self ->
  benchmark_hqc_vs_classical now self hqc classical dom = inr (b, self') ->
  exists saved ratio computed,
    sub (default (Int 1) (classical !! "cost"))
        (default (Float 0.5) (hqc !! "cost")) = inr saved
    /\ truediv saved (default (Int 1) (classical !! "cost")) = inr ratio
    /\ mul ratio (Int 100) = inr computed
    /\ metrics b !! "cost_reduction_pct" =
         Some (if decide (dom = "pharmaceutical") then Float 0 else computed).
Proof.
  intros Hreach Hb.
  apply benchmark_inv in Hb
    as (v1 & saved & ratio & v2 & v3 & v4
        & _ & Hs & Hr & Hm & _ & _ & -> & _).
  exists saved, ratio, v2. split; [exact Hs|]. split; [exact Hr|].
  split; [exact Hm|]. cbn [metrics].
  rewrite (reachable_templates self Hreach), templates_lookup.
  repeat case_decide; subst;
    rewrite ?apply_pharmaceutical, ?apply_financial, ?apply_materials_science;
    lookup_chain.
Qed.

(** The demo's benchmark reports a cost reduction of 0.0. *)
Lemma cost_reduction_replaced_by_template_witness :
  exists b self',
    benchmark_hqc_vs_classical "2025-11-01T09:00:00" init
      demo_hqc demo_classical "pharmaceutical" = inr (b, self')
    /\ metrics b !! "cost_reduction_pct" = Some (Float 0).
Proof.
  destruct (benchmark_hqc_vs_classical "2025-11-01T09:00:00" init
              demo_hqc demo_classical "pharmaceutical")
    as [e|[b self']] eqn:Hrun.
  { apply (f_equal (fun o : arith (Benchmark * ValueMeasurementEngine) =>
                      match o with inl _ => true | inr _ => false end))
      in Hrun.
    vm_compute in Hrun. discriminate Hrun. }
  destruct (cost_reduction_replaced_by_template _ _ _ _ _ _ _
              reachable_init Hrun)
    as (saved & ratio & computed & _ & _ & _ & Hlook).
  exists b, self'. split; [reflexivity|exact Hlook].
Defined.

(** X16. A benchmark that returns, on an engine a program can build, adds
    the returned record at the end of the engine's list and keeps the
    earlier records and the templates.  In every domain its metrics hold
    the computed speedup factor, quality improvement and convergence
    efficiency, and its keys are exactly the four metric names and the KPI
    names of the domain's template, if the domain has one. *)
Theorem benchmark_recorded
    (now : string) (self : ValueMeasurementEngine)
    (hqc classical : gmap string number) (dom : string)
    (b : Benchmark) (self' : ValueMeasurementEngine) :
  reachable self ->
  benchmark_hqc_vs_classical now self hqc classical dom = inr (b, self') ->
  benchmarks self' = benchmarks self ++ [b]
  /\ kpi_templates self' = kpi_templates self
  /\ domain b = dom /\ timestamp b = now
  /\ hqc_result b = hqc /\ classical_result b = classical
  /\ (exists v,
        truediv (default (Int 1) (classical !! "execution_time"))
                (default (Float f0_1) (hqc !! "execution_time")) = inr v
        /\ metrics b !! "speedup_factor" = Some v)
  /\ (exists v,
        sub (default (Float f0_9) (hqc !! "solution_quality"))
            (default (Float f0_7) (classical !! "solution_quality")) = inr v
        /\ metrics b !! "quality_improvement" = Some v)
  /\ (exists v,
        truediv (default (Int 100) (hqc !! "iterations"))
                (default (Int 100) (classical !! "iterations")) = inr v
        /\ metrics b !! "convergence_efficiency" = Some v)
  /\ (forall k,
        is_Some (metrics b !! k) <->
        k ∈ ["speedup_factor"; "cost_reduction_pct"; "quality_improvement";
             "convergence_efficiency"]
            ++ match kpi_templates self !! dom with
               | Some template => PyDict.keys template
               | None => []
               end).
Proof.
  intros Hreach Hb.
  apply benchmark_inv in Hb
    as (v1 & saved & ratio & v2 & v3 & v4
        & H1 & _ & _ & _ & H3 & H4 & -> & ->).
  cbn [metrics benchmarks kpi_templates domain timestamp hqc_result
       classical_result].
  do 6 (split; [reflexivity|]).
  rewrite (reachable_templates self Hreach), templates_lookup.
  repeat case_decide; subst;
    rewrite ?apply_pharmaceutical, ?apply_financial, ?apply_materials_science;
    (split; [exists v1; split; [done|lookup_chain]|]);
    (split; [exists v3; split; [done|lookup_chain]|]);
    (split; [exists v4; split; [done|lookup_chain]|]);
    intros k; unfold PyDict.keys;
    rewrite ?fmap_cons, ?fmap_nil; cbn [fst app];
    rewrite !is_Some_insert_iff, is_Some_empty_iff, !elem_of_cons,
      elem_of_nil; tauto.
Qed.

Lemma benchmark_recorded_witness :
  exists b self',
    benchmark_hqc_vs_classical "2025-11-01T09:00:00" init
      demo_hqc demo_classical "financial" = inr (b, self')
    /\ benchmarks self' = [b]
    /\ is_Some (metrics b !! "computation_speedup")
    /\ ~ is_Some (metrics b !! "problem_solvability").
Proof.
  destruct (benchmark_hqc_vs_classical "2025-11-01T09:00:00" init
              demo_hqc demo_classical "financial")
    as [e|[b self']] eqn:Hrun.
  { apply (f_equal (fun o : arith (Benchmark * ValueMeasurementEngine) =>
                      match o with inl _ => true | inr _ => false end))
      in Hrun.
    vm_compute in Hrun. discriminate Hrun. }
  destruct (benchmark_recorded _ _ _ _ _ _ _ reachable_init Hrun)
    as (Hlist & _ & _ & _ & _ & _ & _ & _ & _ & Hkeys).
  exists b, self'. split; [reflexivity|]. split; [exact Hlist|].
  split.
  - apply Hkeys. do 5 right. left.
  - intros Hs. apply Hkeys in Hs.
    repeat (apply elem_of_cons in Hs as [Hs|Hs]; [discriminate Hs|]).
    by apply elem_of_nil in Hs.
Defined.

End BenchmarkProperties.

(** ** Value measurement: the dashboard *)

Module DashboardFacts.

Import PyNum ValueMeasurement PyNumFacts PyDictFacts BenchmarkFacts.

(** The breakdown, domain by domain: the metrics of the domain's
    benchmarks, in order; no entry for a domain without benchmarks. *)
Lemma break_down_get bs d :
  PyDict.get d (break_down bs) =
    match map metrics (filter (fun b => domain b = d) bs) with
    | [] => None
    | ms => Some ms
    end.
Proof.
  unfold break_down.
  induction bs as [|b bs IH] using rev_ind; [done|].
  rewrite fold_left_app, filter_app, map_app. cbn [fold_left].
  match goal with
  | |- context [fold_left ?f bs []] => set (bd := fold_left f bs []) in *
  end.
  destruct (decide (d = domain b)) as [->|Hne].
  - rewrite get_set_eq.
    rewrite (filter_cons _ b []), decide_True, filter_nil by done.
    cbn [map].
    destruct (PyDict.get (domain b) bd) as [ms|] eqn:Hget; cbv beta iota.
    + rewrite Hget. cbn [default].
      destruct (map metrics (filter _ bs)) as [|m ms'] eqn:Hms; [done|].
      injection IH as ->. done.
    + rewrite get_set_eq. cbn [default].
      by destruct (map metrics (filter _ bs)).
  - rewrite get_set_ne by done.
    rewrite (filter_cons _ b []), decide_False, filter_nil, app_nil_r
      by (simpl; congruence).
    destruct (PyDict.get (domain b) bd); [exact IH|].
    by rewrite get_set_ne.
Qed.

Lemma break_down_NoDup bs : NoDup (PyDict.keys (break_down bs)).
Proof.
  unfold break_down.
  induction bs as [|b bs IH] using rev_ind; [apply NoDup_nil_2|].
  rewrite fold_left_app. cbn [fold_left].
  apply keys_set_NoDup.
  destruct (PyDict.get _ _); [exact IH|by apply keys_set_NoDup].
Qed.

(** Benchmarks whose speedup and cost reduction are floats. *)
Lemma benchmark_float_metrics now self hqc classical dom b self' :
  kpi_templates self = _load_kpi_templates ->
  benchmark_hqc_vs_classical now self hqc classical dom = inr (b, self') ->
  exists f1 f2,
    metrics b !! "speedup_factor" = Some (Float f1)
    /\ metrics b !! "cost_reduction_pct" = Some (Float f2).
Proof.
  intros Htpl Hb.
  apply benchmark_inv in Hb
    as (v1 & saved & ratio & v2 & v3 & v4
        & H1 & _ & Hr & Hm & _ & _ & -> & _).
  apply truediv_Float in H1 as [f1 ->].
  apply truediv_Float in Hr as [fr ->].
  rewrite mul_Float_100 in Hm. injection Hm as <-.
  cbn [metrics]. rewrite Htpl, templates_lookup.
  repeat case_decide; subst;
    rewrite ?apply_pharmaceutical, ?apply_financial, ?apply_materials_science;
    eexists _, _; split; lookup_chain.
Qed.

Lemma reachable_float_metrics self :
  reachable self ->
  Forall (fun b => exists f1 f2,
            metrics b !! "speedup_factor" = Some (Float f1)
            /\ metrics b !! "cost_reduction_pct" = Some (Float f2))
    (benchmarks self).
Proof.
  induction 1 as [|now self hqc classical dom b self' Hreach IH Hb];
    [constructor|].
  pose proof (benchmark_float_metrics _ _ _ _ _ _ _
                (reachable_templates self Hreach) Hb) as Hfl.
  apply benchmark_inv in Hb
    as (? & ? & ? & ? & ? & ? & _ & _ & _ & _ & _ & _ & _ & ->).
  cbn [benchmarks]. apply Forall_app. split; [exact IH|].
  by constructor.
Qed.

Lemma metric_column_floats key bs :
  Forall (fun b => exists f, metrics b !! key = Some (Float f)) bs ->
  exists fs, metric_column key bs = inr fs /\ length fs = length bs.
Proof.
  induction 1 as [|b bs [f Hf] _ [fs [IH Hlen]]]; simpl; [by exists []|].
  rewrite Hf, IH. simpl. exists (f :: fs). by rewrite <- Hlen.
Qed.

End DashboardFacts.

Module DashboardProperties.

Import PyNum ValueMeasurement PyNumFacts PyDictFacts BenchmarkFacts.
Import DashboardFacts BenchmarkScenario.

(** X17. What the dashboard shows.  Without benchmarks it is the status
    "No benchmarks yet".  Otherwise the total is the number of benchmarks,
    the latest benchmark is the last one recorded, and the breakdown has
    one entry per domain that occurs, no domain twice, holding the metrics
    of that domain's benchmarks in the order they were recorded; a domain
    without benchmarks has no entry. *)
Theorem dashboard_summary (self : ValueMeasurementEngine) (dash : Dashboard) :
  generate_kpi_dashboard self = inr dash ->
  match dash with
  | NoBenchmarks status =>
      benchmarks self = [] /\ status = "No benchmarks yet"
  | Summary total _ _ breakdown latest =>
      total = length (benchmarks self)
      /\ (0 < total)%nat
      /\ last (benchmarks self) = Some latest
      /\ NoDup (PyDict.keys breakdown)
      /\ forall d,
           PyDict.get d breakdown =
             match map metrics
                     (filter (fun b => domain b = d) (benchmarks self)) with
             | [] => None
             | ms => Some ms
             end
  end.
Proof.
  unfold generate_kpi_dashboard.
  destruct (last (benchmarks self)) as [latest|] eqn:Hlast.
  - destruct (metric_column "speedup_factor" _) as [|speedups]; [done|].
    destruct (metric_column "cost_reduction_pct" _) as [|reductions]; [done|].
    intros [= <-]. split; [done|]. split.
    { destruct (benchmarks self); [done|simpl; lia]. }
    split; [done|]. split; [apply break_down_NoDup|].
    intros d. apply break_down_get.
  - intros [= <-]. split; [|done]. by apply last_None.
Qed.

Lemma dashboard_summary_witness :
  exists total speedup reduction breakdown latest ms,
    generate_kpi_dashboard demo_engine
      = inr (Summary total speedup reduction breakdown latest)
    /\ total = 1%nat
    /\ PyDict.get "pharmaceutical" breakdown = Some [ms]
    /\ PyDict.get "financial" breakdown = None.
Proof.
  destruct (generate_kpi_dashboard demo_engine) as [e|dash] eqn:Hdash.
  { apply (f_equal (fun o : dashboard_exn + Dashboard =>
                      match o with inl _ => true | inr _ => false end))
      in Hdash.
    vm_compute in Hdash. discriminate Hdash. }
  pose proof (dashboard_summary demo_engine dash Hdash) as Hsum.
  destruct dash as [status|total speedup reduction breakdown latest].
  { destruct Hsum as [Hnil _].
    apply (f_equal length) in Hnil. vm_compute in Hnil. discriminate Hnil. }
  destruct Hsum as (Htotal & _ & _ & _ & Hget).
  assert (Hlen : length (benchmarks demo_engine) = 1%nat)
    by (vm_compute; reflexivity).
  destruct (benchmarks demo_engine) as [|b [|b' bs]] eqn:Hbs;
    [discriminate Hlen| |discriminate Hlen].
  assert (Hdom : domain b = "pharmaceutical").
  { assert (Hd : (domain <$> benchmarks demo_engine) = ["pharmaceutical"])
      by (vm_compute; reflexivity).
    rewrite Hbs in Hd. by injection Hd. }
  exists total, speedup, reduction, breakdown, latest, (metrics b).
  split; [reflexivity|]. split; [exact Htotal|]. split.
  - rewrite Hget. rewrite (filter_cons _ b []), decide_True by exact Hdom.
    reflexivity.
  - rewrite Hget. rewrite (filter_cons _ b []), decide_False; [reflexivity|].
    rewrite Hdom. discriminate.
Defined.

(** X18. On an engine a program can build, the dashboard never raises:
    every recorded benchmark has a float speedup factor and a float cost
    reduction, so both averages can be taken. *)
Theorem dashboard_total (self : ValueMeasurementEngine) :
  reachable self ->
  exists dash, generate_kpi_dashboard self = inr dash.
Proof.
  intros Hreach. unfold generate_kpi_dashboard.
  destruct (last (benchmarks self)) as [latest|]; [|eauto].
  pose proof (reachable_float_metrics self Hreach) as Hfl.
  destruct (metric_column_floats "speedup_factor" (benchmarks self))
    as (speedups & -> & _).
  { eapply Forall_impl; [exact Hfl|]. intros b (f1 & f2 & H1 & H2). eauto. }
  destruct (metric_column_floats "cost_reduction_pct" (benchmarks self))
    as (reductions & -> & _).
  { eapply Forall_impl; [exact Hfl|]. intros b (f1 & f2 & H1 & H2). eauto. }
  eauto.
Qed.

Lemma dashboard_total_witness :
  exists dash, generate_kpi_dashboard demo_engine = inr dash.
Proof.
  apply dashboard_total. unfold demo_engine.
  destruct (benchmark_hqc_vs_classical "2025-11-01T09:00:00" init
              demo_hqc demo_classical "pharmaceutical")
    as [e|[b self']] eqn:Hrun; [apply reachable_init|].
  exact (reachable_benchmark _ _ _ _ _ _ _ reachable_init Hrun).
Defined.

End DashboardProperties.
